(** * Login handshake, session supervision and media relay of the
      Telegram media-saver bot (manager_and_bot.py, user_media_saver.py)

    The two Python modules are embedded function by function.  Python
    objects that are shared and mutated (asyncio futures and tasks) live
    in an explicit heap; calls into the collaborators (the bot API, the
    Telethon client, the clock) take their outcome from an environment
    record, so every path of the source can be exercised. *)

From Stdlib Require Import ZArith Ascii String DecimalString DecimalZ DecimalPos.
From stdpp Require Import gmap strings list sorting.

Local Open Scope string_scope.
Local Open Scope Z_scope.

(** ** Python strings

    A [str] is modelled by a Rocq [string]; each [ascii] stands for the
    code point of the same number, so the model covers the texts whose
    code points are below 256.  The character classes below are those of
    the Unicode database on that range. *)

Definition LF : ascii := "010"%char.
Definition CR : ascii := "013"%char.

(** [str.isspace] on one character: TAB..CR, FS..US, space, NEL, NBSP. *)
Definition isspace_char (a : ascii) : bool :=
  let n := N_of_ascii a in
  ((9 <=? n) && (n <=? 13) || (28 <=? n) && (n <=? 32)
   || (n =? 133) || (n =? 160))%N.

(** [str.isdigit] on one character: the ten decimal digits and the
    superscripts two, three and one (U+00B2, U+00B3, U+00B9). *)
Definition isdigit_char (a : ascii) : bool :=
  let n := N_of_ascii a in
  ((48 <=? n) && (n <=? 57) || (n =? 178) || (n =? 179) || (n =? 185))%N.

Fixpoint all_chars (p : ascii -> bool) (s : string) : bool :=
  match s with
  | EmptyString => true
  | String a t => p a && all_chars p t
  end.

(** [s.isdigit()]: at least one character and all of them digits. *)
Definition isdigit (s : string) : bool :=
  match s with
  | EmptyString => false
  | _ => all_chars isdigit_char s
  end.

Fixpoint lstrip (s : string) : string :=
  match s with
  | EmptyString => EmptyString
  | String a t => if isspace_char a then lstrip t else s
  end.

Fixpoint rstrip (s : string) : string :=
  match s with
  | EmptyString => EmptyString
  | String a t =>
      match rstrip t with
      | EmptyString => if isspace_char a then EmptyString else String a EmptyString
      | t' => String a t'
      end
  end.

(** [s.strip()] *)
Definition strip (s : string) : string := rstrip (lstrip s).

(** [s.startswith(c)] for a one-character prefix. *)
Definition startswith (c : ascii) (s : string) : bool :=
  match s with
  | String a _ => bool_decide (a = c)
  | EmptyString => false
  end.

(** [s[1:]] *)
Definition slice_from_1 (s : string) : string :=
  match s with
  | String _ t => t
  | EmptyString => EmptyString
  end.

(** [len(s)] *)
Definition len (s : string) : Z := Z.of_nat (String.length s).

(** A Python value used as a condition: the empty string is false. *)
Definition truthy_str (s : string) : bool :=
  match s with EmptyString => false | _ => true end.

(** [str(n)] for an [int]. *)
Definition py_str (n : Z) : string := NilZero.string_of_int (Z.to_int n).

(** [int(s)], on the strings that reach it in this program: the digit
    strings that passed [isdigit] and the results of [str].  [None] is
    [ValueError] (raised, for one, on the superscript digits). *)
Definition py_int (s : string) : option Z :=
  Z.of_int <$> NilZero.int_of_string s.

(** [os.path.basename] *)
Fixpoint basename (p : string) : string :=
  match p with
  | EmptyString => EmptyString
  | String a t =>
      if bool_decide (a = "/"%char) then basename t
      else if existsb (fun c => bool_decide (c = "/"%char)) (list_ascii_of_string t)
           then basename t else p
  end.

(** ** The durable user-id list ([USER_IDS_FILE])

    The file is [None] while it does not exist and [Some content]
    otherwise.  It is opened in text mode, so reading translates the
    three line endings to a line feed before the lines are iterated. *)

Fixpoint translate_newlines (s : string) : string :=
  match s with
  | EmptyString => EmptyString
  | String a t =>
      if bool_decide (a = CR) then
        match t with
        | String b t' =>
            if bool_decide (b = LF) then String LF (translate_newlines t')
            else String LF (translate_newlines t)
        | EmptyString => String LF EmptyString
        end
      else String a (translate_newlines t)
  end.

(** [for line in f]: every line keeps its terminating line feed; a last
    line without one is yielded as it is. *)
Fixpoint readlines (s : string) : list string :=
  match s with
  | EmptyString => []
  | String a t =>
      if bool_decide (a = LF) then String LF EmptyString :: readlines t
      else match readlines t with
           | [] => [String a EmptyString]
           | l :: ls => String a l :: ls
           end
  end.

(** The loop [for uid_val in ...: f.write(str(uid_val) + '\n')]. *)
Fixpoint write_ids (ids : list Z) : string :=
  match ids with
  | [] => EmptyString
  | n :: rest => py_str n ++ String LF EmptyString ++ write_ids rest
  end.

Definition read_existing_ids (file : option string) : gset string :=
  match file with
  | Some content => list_to_set (strip <$> readlines (translate_newlines content))
  | None => ∅
  end.

(** [add_user_id_to_store].  The file system is taken to be reliable (no
    [IOError]); a [ValueError] of [int] is caught by the function's
    [except Exception], which leaves the file as it was. *)
Definition add_user_id_to_store (user_id_to_add : Z) (file : option string)
  : option string :=
  let user_id_to_add_str := py_str user_id_to_add in
  let existing_ids := read_existing_ids file in
  if decide (user_id_to_add_str ∈ existing_ids) then file
  else
    match mapM py_int (filter (fun id_str => isdigit id_str = true)
                              (elements existing_ids)),
          py_int user_id_to_add_str with
    | Some nums, Some n =>
        let numeric_ids : gset Z := list_to_set nums ∪ {[ n ]} in
        Some (write_ids (merge_sort Z.le (elements numeric_ids)))
    | _, _ => file
    end.

(** The store after a run of additions to a file that did not exist. *)
Definition store_after (ids : list Z) : option string :=
  fold_left (fun file n => add_user_id_to_store n file) ids None.

(** ** Exceptions and control

    Only the distinctions the handlers make are kept.  [CancelledError]
    derives from [BaseException] (the annotations [str | None] need
    Python 3.10), so [except Exception] does not catch it. *)

Inductive exn :=
  | CancelledError
  | TimeoutError
  | InvalidStateError
  | KeyError
  | SessionPasswordNeededError
  | PhoneCodeInvalidError
  | PhoneNumberInvalidError
  | PasswordHashInvalidError
  | OSError
  | OtherError.

Global Instance exn_eq_dec : EqDecision exn.
Proof. solve_decision. Defined.

(** [isinstance(e, Exception)] *)
Definition is_Exception (e : exn) : bool :=
  match e with CancelledError => false | _ => true end.

(** What a call into a collaborator does: it returns or it raises. *)
Inductive outcome (A : Type) :=
  | Returns (a : A)
  | Raises (e : exn).
Arguments Returns {A} a.
Arguments Raises {A} e.

(** How a block of statements ends: it falls through with a value, it
    executes [return], or it raises. *)
Inductive ctl (R A : Type) :=
  | Next (a : A)
  | Return (r : R)
  | Raise (e : exn).
Arguments Next {R A} a.
Arguments Return {R A} r.
Arguments Raise {R A} e.

Section Body.
Context {St R : Type}.

(** A block of a coroutine over the state [St], in a function whose
    [return] carries an [R]. *)
Definition body (A : Type) : Type := St -> ctl R A * St.

Definition pure {A} (a : A) : body A := fun s => (Next a, s).
Definition return_ {A} (r : R) : body A := fun s => (Return r, s).
Definition raise {A} (e : exn) : body A := fun s => (Raise e, s).

Definition bind {A B} (m : body A) (k : A -> body B) : body B :=
  fun s =>
    match m s with
    | (Next a, s') => k a s'
    | (Return r, s') => (Return r, s')
    | (Raise e, s') => (Raise e, s')
    end.

(** [await f(...)]: the state change [act] of the call happens, then
    the call returns or raises as the environment says. *)
Definition call {A} (act : St -> St) (o : outcome A) : body A :=
  fun s =>
    match o with
    | Returns a => (Next a, act s)
    | Raises e => (Raise e, act s)
    end.

Definition when (b : bool) (m : body unit) : body unit :=
  if b then m else pure tt.

(** [try: m  except ...:], the clauses given as the first handler that
    matches the exception, if any. *)
Definition try_except {A} (m : body A) (h : exn -> option (body A)) : body A :=
  fun s =>
    match m s with
    | (Raise e, s') =>
        match h e with
        | Some k => k s'
        | None => (Raise e, s')
        end
    | r => r
    end.

(** [try: m  finally: f] *)
Definition try_finally {A} (m : body A) (f : body unit) : body A :=
  fun s =>
    let '(r, s') := m s in
    match f s' with
    | (Next _, s'') => (r, s'')
    | (Return v, s'') => (Return v, s'')
    | (Raise e, s'') => (Raise e, s'')
    end.

(** [except Exception:] *)
Definition on_Exception {A} (k : exn -> body A) (e : exn) : option (body A) :=
  if is_Exception e then Some (k e) else None.
End Body.
Arguments body : clear implicits.

Notation "x <- m ;; k" := (bind m (fun x => k))
  (at level 100, m at next level, right associativity).
Notation "m ;; k" := (bind m (fun _ => k))
  (at level 100, right associativity).

(** The result of a coroutine that has run to its end. *)
Definition finish {St R} (r : ctl R R * St) : outcome R * St :=
  match r with
  | (Next v, s) | (Return v, s) => (Returns v, s)
  | (Raise e, s) => (Raises e, s)
  end.

(** ** Rendezvous: [asyncio.wait_for(future, timeout)]

    The awaited future's fate is given by the environment: when (in
    seconds from the start of the wait) it gets a result, or that the
    waiting task is cancelled, or that nothing happens. *)

Inductive fate :=
  | FulfilledAfter (t : Z) (v : option string)
  | CancelledAfter (t : Z)
  | Unfulfilled.

Definition wait_for (f : fate) (timeout : Z) : outcome (option string) :=
  match f with
  | FulfilledAfter t v => if t <? timeout then Returns v else Raises TimeoutError
  | CancelledAfter t => if t <? timeout then Raises CancelledError else Raises TimeoutError
  | Unfulfilled => Raises TimeoutError
  end.

(** [get_code_from_bot_callback] and [get_password_from_bot_callback],
    the closures of [received_phone].  The argument is the fate of
    [context.user_data['code_future']], [None] when the key is gone. *)
Definition rendezvous_callback (fut : option fate) : outcome (option string) :=
  match fut with
  | None => Raises KeyError
  | Some f =>
      match wait_for f 300 with
      | Raises TimeoutError => Returns None
      | r => r
      end
  end.
Definition get_code_from_bot_callback := rendezvous_callback.
Definition get_password_from_bot_callback := rendezvous_callback.

(** ** The account session task ([run_user_instance])

    The Telethon client is a collaborator: what each of its calls does
    is read from [client_env].  [connect] is taken at the meaning the
    source gives it (a false result is a failed connection), and
    [disconnect] always succeeds.  The creation of the two directories
    at the start and the logging are left out. *)

Inductive client_call :=
  | CConnect
  | CIsUserAuthorized
  | CSendCodeRequest (phone : string)
  | CSignInCode (phone code : string)
  | CSignInPassword (password : string)
  | CGetMe
  | CDisconnect
  | CSaveSession
  | CAddHandler
  | CRunUntilDisconnected.

Global Instance client_call_eq_dec : EqDecision client_call.
Proof. solve_decision. Defined.

Record client := {
  connected : bool;
  calls : list client_call
}.

Definition new_client : client := {| connected := false; calls := [] |}.

Definition log_call (c : client_call) (cl : client) : client :=
  {| connected := connected cl; calls := calls cl ++ [c] |}.

Record client_env := {
  connect_r : outcome bool;
  is_user_authorized_r : outcome bool;
  send_code_request_r : outcome unit;
  sign_in_code_r : string -> outcome (option Z);
  sign_in_password_r : string -> outcome (option Z);
  get_me_r : outcome (option Z);
  recheck_authorized_r : outcome bool;
  save_session_r : outcome unit
}.

Section Session.
Variable env : client_env.
Variable phone_to_login : string.
Variables get_code_callback get_password_callback : outcome (option string).

Abbreviation task := (body client (option Z)).

Definition connect : task bool :=
  call (fun cl =>
          {| connected := match connect_r env with
                          | Returns b => b
                          | Raises _ => connected cl
                          end;
             calls := calls cl ++ [CConnect] |})
       (connect_r env).

Definition disconnect : task unit :=
  call (fun cl => {| connected := false; calls := calls cl ++ [CDisconnect] |})
       (Returns tt).

Definition is_connected : task bool := fun cl => (Next (connected cl), cl).

(** [if client.is_connected(): await client.disconnect()] *)
Definition disconnect_if_connected : task unit :=
  c <- is_connected ;; when c disconnect.

(** The [try] block of lines 45-89: code request, code rendezvous,
    sign-in, and the second factor. *)
Definition login_with_code : task (option Z) :=
  try_except
    (call (log_call (CSendCodeRequest phone_to_login)) (send_code_request_r env) ;;
     user_code <- call id get_code_callback ;;
     match user_code with
     | None => disconnect ;; return_ None
     | Some code =>
         call (log_call (CSignInCode phone_to_login code)) (sign_in_code_r env code)
     end)
    (fun e =>
       match e with
       | SessionPasswordNeededError => Some (
           user_password <- call id get_password_callback ;;
           match user_password with
           | None => disconnect ;; return_ None
           | Some password =>
               try_except
                 (call (log_call (CSignInPassword password))
                       (sign_in_password_r env password))
                 (fun e_pw =>
                    match e_pw with
                    | PasswordHashInvalidError =>
                        Some (disconnect ;; raise PasswordHashInvalidError)
                    | _ => on_Exception (fun _ => disconnect ;; return_ None) e_pw
                    end)
           end)
       | PhoneCodeInvalidError => Some (disconnect ;; raise PhoneCodeInvalidError)
       | PhoneNumberInvalidError => Some (disconnect ;; raise PhoneNumberInvalidError)
       | _ => on_Exception (fun _ => disconnect ;; return_ None) e
       end).

(** [if not await client.is_user_authorized() or not me] *)
Definition not_authorized_or_no_me (me : option Z) : task bool :=
  a <- call (log_call CIsUserAuthorized) (recheck_authorized_r env) ;;
  pure (negb a || negb (bool_decide (is_Some me))).

Definition run_user_instance_body : task (option Z) :=
  try_except
    (ok <- connect ;;
     if negb ok then return_ None
     else
       authorized <- call (log_call CIsUserAuthorized) (is_user_authorized_r env) ;;
       me <- (if negb authorized then login_with_code
              else call (log_call CGetMe) (get_me_r env)) ;;
       bad <- not_authorized_or_no_me me ;;
       if bad then disconnect_if_connected ;; return_ None
       else
         call (log_call CSaveSession) (save_session_r env) ;;
         call (log_call CAddHandler) (Returns tt) ;;
         call (log_call CRunUntilDisconnected) (Returns tt) ;;
         return_ me)
    (fun e =>
       match e with
       | PhoneCodeInvalidError | PhoneNumberInvalidError | PasswordHashInvalidError =>
           Some (disconnect_if_connected ;; raise e)
       | _ => on_Exception (fun _ => disconnect_if_connected ;; return_ None) e
       end).

Definition run_user_instance : outcome (option Z) * client :=
  finish (run_user_instance_body new_client).
End Session.

(** The watch phase has started once [run_until_disconnected] was
    scheduled. *)
Definition watching (cl : client) : bool :=
  bool_decide (CRunUntilDisconnected ∈ calls cl).

(** ** The media relay handler ([handle_outgoing_reply])

    The handler runs against the event, the Telethon client and the
    local disk.  The disk is the set of the paths of the files that
    exist, and is reliable: removing a file that exists succeeds. *)

Record new_message := {
  is_reply : bool;
  raw_text : string;
  sender_id : Z;
  reply_to_msg_id : Z;
  chat_id : Z;
  chat_title : option string
}.

Record message := {
  message_id : Z;
  has_media : bool
}.

Record sender := {
  first_name : option string;
  last_name : option string;
  sender_ident : Z
}.

(** The texts the status message is set to. *)
Inductive status_text :=
  | StProcessing
  | StFetchFailed
  | StNotFound
  | StNoMedia
  | StDownloadFailed (err : exn)
  | StSaved
  | StSendFailed (err : exn)
  | StFileMissing.

Global Instance status_text_eq_dec : EqDecision status_text.
Proof. solve_decision. Defined.

Record caption := {
  saved_name : string;
  originally_from : string;
  replied_in_chat : string
}.

Global Instance caption_eq_dec : EqDecision caption.
Proof. solve_decision. Defined.

Inductive relay_call :=
  | RReply (text : status_text)
  | REdit (text : status_text)
  | RDelete
  | RSleep (seconds : Z)
  | RGetMessages (chat ids : Z)
  | RGetSender
  | RMakedirs (path : string)
  | RDownloadMedia (dir : string)
  | RSendFile (path : string) (c : caption)
  | RRemove (path : string).

Global Instance relay_call_eq_dec : EqDecision relay_call.
Proof. solve_decision. Defined.

Record relay_state := {
  files : gset string;
  dirs : gset string;
  rcalls : list relay_call
}.

Record relay_env := {
  reply_r : outcome unit;
  get_messages_r : outcome (option message);
  get_sender_r : outcome (option sender);
  makedirs_r : outcome unit;
  download_media_r : outcome (option string);
  download_writes : bool;
  send_file_r : outcome unit;
  edit_r : status_text -> outcome unit;
  sleep_r : Z -> outcome unit;
  delete_r : outcome unit
}.

Definition DOWNLOAD_PATH_BASE : string := "user_downloads/".

(** [x or ''] *)
Definition or_empty (x : option string) : string := default "" x.

(** Lines 151-155. *)
Definition sender_info (media_sender : option sender) : string :=
  match media_sender with
  | None => "Unknown User"
  | Some u =>
      or_empty (first_name u)
      ++ (if truthy_str (or_empty (last_name u)) then " " ++ or_empty (last_name u) else "")
      ++ " (ID: " ++ py_str (sender_ident u) ++ ")"
  end.

Definition chat_name (title : option string) : string :=
  if truthy_str (or_empty title) then or_empty title else "DM/Unknown Chat".

Section Relay.
Variable env : relay_env.
Variable command_trigger : string.
Variable my_id : Z.
Variable event : new_message.

Abbreviation relay := (body relay_state unit).

Definition log_relay (c : relay_call) (st : relay_state) : relay_state :=
  {| files := files st; dirs := dirs st; rcalls := rcalls st ++ [c] |}.

(** [if status_msg: await status_msg.edit(text)] *)
Definition edit_status (status_msg : bool) (text : status_text) : relay unit :=
  when status_msg (call (log_relay (REdit text)) (edit_r env text)).

(** [try: await status_msg.delete()  except Exception: pass] *)
Definition delete_status : relay unit :=
  try_except (call (log_relay RDelete) (delete_r env))
             (on_Exception (fun _ => pure tt)).

(** [os.path.exists(p)] followed by [os.makedirs(p)] *)
Definition ensure_dir (p : string) : relay unit :=
  fun st =>
    if decide (p ∈ dirs st) then (Next tt, st)
    else call (fun st => {| files := files st;
                            dirs := match makedirs_r env with
                                    | Returns _ => {[ p ]} ∪ dirs st
                                    | Raises _ => dirs st
                                    end;
                            rcalls := rcalls st ++ [RMakedirs p] |})
              (makedirs_r env) st.

(** [client.download_media]: the file it returns exists afterwards when
    the environment says the download wrote it. *)
Definition download_media (dir : string) : relay (option string) :=
  call (fun st => {| files := match download_media_r env with
                              | Returns (Some p) =>
                                  if download_writes env then {[ p ]} ∪ files st
                                  else files st
                              | _ => files st
                              end;
                     dirs := dirs st;
                     rcalls := rcalls st ++ [RDownloadMedia dir] |})
       (download_media_r env).

(** [os.remove(p)] inside [try ... except OSError] *)
Definition remove_file (p : string) : relay unit :=
  try_except
    (fun st =>
       if decide (p ∈ files st)
       then (Next tt, {| files := files st ∖ {[ p ]}; dirs := dirs st;
                         rcalls := rcalls st ++ [RRemove p] |})
       else (Raise OSError, log_relay (RRemove p) st))
    (fun e => match e with OSError => Some (pure tt) | _ => None end).

Definition path_exists (p : string) : relay bool :=
  fun st => (Next (bool_decide (p ∈ files st)), st).

(** Lines 177-211: forward, report, clean up. *)
Definition forward_step (status_msg : bool) (sssender_info : string)
    (downloaded_file_path : string) : relay unit :=
  let caption_text := {| saved_name := basename downloaded_file_path;
                         originally_from := sssender_info;
                         replied_in_chat := chat_name (chat_title event) |} in
  try_finally
    (try_except
       (call (log_relay (RSendFile downloaded_file_path caption_text)) (send_file_r env) ;;
        edit_status status_msg StSaved ;;
        when status_msg
          (call (log_relay (RSleep 10)) (sleep_r env 10) ;;
           delete_status))
       (on_Exception (fun send_err => edit_status status_msg (StSendFailed send_err))))
    (remove_file downloaded_file_path).

Definition handle_outgoing_reply_body : relay unit :=
  if is_reply event && bool_decide (raw_text event = command_trigger) then
    if negb (bool_decide (sender_id event = my_id)) then return_ tt
    else
      status_msg <- try_except
                      (call (log_relay (RReply StProcessing)) (reply_r env) ;; pure true)
                      (on_Exception (fun _ => pure false)) ;;
      target_message <- try_except
                          (call (log_relay (RGetMessages (chat_id event)
                                                         (reply_to_msg_id event)))
                                (get_messages_r env))
                          (on_Exception (fun _ =>
                             edit_status status_msg StFetchFailed ;; return_ tt)) ;;
      match target_message with
      | None => edit_status status_msg StNotFound ;; return_ tt
      | Some target =>
          if negb (has_media target) then
            edit_status status_msg StNoMedia ;;
            when status_msg (call (log_relay (RSleep 5)) (sleep_r env 5) ;; delete_status) ;;
            return_ tt
          else
            media_sender <- call (log_relay RGetSender) (get_sender_r env) ;;
            let sssender_info := sender_info media_sender in
            let user_specific_download_path := DOWNLOAD_PATH_BASE ++ py_str my_id in
            ensure_dir user_specific_download_path ;;
            downloaded_file_path <-
              try_except
                (p <- download_media user_specific_download_path ;;
                 if truthy_str (or_empty p) then pure (or_empty p) else raise OtherError)
                (on_Exception (fun err =>
                   edit_status status_msg (StDownloadFailed err) ;; return_ tt)) ;;
            there <- path_exists downloaded_file_path ;;
            if truthy_str downloaded_file_path && there
            then forward_step status_msg sssender_info downloaded_file_path
            else edit_status status_msg StFileMissing
      end
  else pure tt.

Definition handle_outgoing_reply (st : relay_state) : outcome unit * relay_state :=
  finish (handle_outgoing_reply_body st).
End Relay.

(** ** The front channel (manager_and_bot.py)

    [asyncio] futures and tasks are objects shared between the handlers
    and the session task: they live in two heaps and are referred to by
    their index. *)

Inductive future :=
  | FutPending
  | FutResult (v : option string)
  | FutCancelled.

(** [fut.done()] *)
Definition fut_done (f : future) : bool :=
  match f with FutPending => false | _ => true end.

(** [fut.set_result(v)] raises [InvalidStateError] on a future that is
    done. *)
Definition set_result (v : option string) (f : future) : outcome future :=
  match f with
  | FutPending => Returns (FutResult v)
  | _ => Raises InvalidStateError
  end.

(** A task runs (with or without a cancellation requested by
    [task.cancel()] and not yet delivered) or has finished with the
    result or the exception of its coroutine. *)
Inductive task_status :=
  | Running (must_cancel : bool)
  | Finished (r : outcome (option Z)).

Record task := {
  task_user : Z;
  task_phone : string;
  status : task_status
}.

(** [task.done()] *)
Definition task_done (t : task) : bool :=
  match status t with Running _ => false | Finished _ => true end.

(** [task.cancel()] *)
Definition cancel (t : task) : task :=
  match status t with
  | Running _ => {| task_user := task_user t; task_phone := task_phone t;
                    status := Running true |}
  | Finished _ => t
  end.

Definition finished (r : outcome (option Z)) (t : task) : task :=
  {| task_user := task_user t; task_phone := task_phone t; status := Finished r |}.

(** [ConversationHandler] states; [END] is [ConversationHandler.END]. *)
Inductive conv_state := AWAIT_PHONE | AWAIT_CODE | AWAIT_PASSWORD | END.

Global Instance conv_state_eq_dec : EqDecision conv_state.
Proof. solve_decision. Defined.

(** The texts the bot sends, one constructor for each [reply_text] of the
    handlers modelled. *)
Inductive bot_reply :=
  | MsgApiMissing
  | MsgActiveSession
  | MsgAskPhone
  | MsgInvalidPhone
  | MsgAttempting (phone : string)
  | MsgAskCode
  | MsgGotCode
  | MsgAsk2FA
  | MsgCodeNotAccepted
  | MsgPasswordReceived
  | MsgLoginSuccessful (account : Z)
  | MsgLoginFailed
  | MsgLoginTimedOut
  | MsgLoginFailedBecause (e : exn)
  | MsgUnexpectedError (e : exn)
  | MsgNoLoginTask
  | MsgCancelled
  | MsgLoggedOutFileRemoved
  | MsgLoggedOutRemoveFailed
  | MsgLoggedOutNoFile
  | MsgNotLoggedIn.

Global Instance bot_reply_eq_dec : EqDecision bot_reply.
Proof. solve_decision. Defined.


(** [context.user_data], a dict with four possible keys. *)
Record user_data := {
  phone_to_login : option string;
  code_future : option nat;
  password_future : option nat;
  current_login_task : option nat
}.

Definition no_user_data : user_data :=
  {| phone_to_login := None; code_future := None;
     password_future := None; current_login_task := None |}.

Record bot := {
  api_configured : bool;
  active_user_telethon_tasks : gmap Z nat;
  tasks : list task;
  futures : list future;
  context_user_data : gmap Z user_data;
  conversations : gmap (Z * Z) conv_state;
  session_files : gset Z;
  user_ids_file : option string;
  sent : list (Z * bot_reply)
}.

Definition set_registry (r : gmap Z nat) (s : bot) : bot :=
  {| api_configured := api_configured s; active_user_telethon_tasks := r;
     tasks := tasks s; futures := futures s;
     context_user_data := context_user_data s; conversations := conversations s;
     session_files := session_files s; user_ids_file := user_ids_file s;
     sent := sent s |}.
Definition set_tasks (ts : list task) (s : bot) : bot :=
  {| api_configured := api_configured s;
     active_user_telethon_tasks := active_user_telethon_tasks s;
     tasks := ts; futures := futures s;
     context_user_data := context_user_data s; conversations := conversations s;
     session_files := session_files s; user_ids_file := user_ids_file s;
     sent := sent s |}.
Definition set_futures (fs : list future) (s : bot) : bot :=
  {| api_configured := api_configured s;
     active_user_telethon_tasks := active_user_telethon_tasks s;
     tasks := tasks s; futures := fs;
     context_user_data := context_user_data s; conversations := conversations s;
     session_files := session_files s; user_ids_file := user_ids_file s;
     sent := sent s |}.
Definition set_user_data (d : gmap Z user_data) (s : bot) : bot :=
  {| api_configured := api_configured s;
     active_user_telethon_tasks := active_user_telethon_tasks s;
     tasks := tasks s; futures := futures s;
     context_user_data := d; conversations := conversations s;
     session_files := session_files s; user_ids_file := user_ids_file s;
     sent := sent s |}.
Definition set_conversations (c : gmap (Z * Z) conv_state) (s : bot) : bot :=
  {| api_configured := api_configured s;
     active_user_telethon_tasks := active_user_telethon_tasks s;
     tasks := tasks s; futures := futures s;
     context_user_data := context_user_data s; conversations := c;
     session_files := session_files s; user_ids_file := user_ids_file s;
     sent := sent s |}.
Definition set_session_files (f : gset Z) (s : bot) : bot :=
  {| api_configured := api_configured s;
     active_user_telethon_tasks := active_user_telethon_tasks s;
     tasks := tasks s; futures := futures s;
     context_user_data := context_user_data s; conversations := conversations s;
     session_files := f; user_ids_file := user_ids_file s;
     sent := sent s |}.
Definition set_user_ids_file (f : option string) (s : bot) : bot :=
  {| api_configured := api_configured s;
     active_user_telethon_tasks := active_user_telethon_tasks s;
     tasks := tasks s; futures := futures s;
     context_user_data := context_user_data s; conversations := conversations s;
     session_files := session_files s; user_ids_file := f;
     sent := sent s |}.
Definition set_sent (o : list (Z * bot_reply)) (s : bot) : bot :=
  {| api_configured := api_configured s;
     active_user_telethon_tasks := active_user_telethon_tasks s;
     tasks := tasks s; futures := futures s;
     context_user_data := context_user_data s; conversations := conversations s;
     session_files := session_files s; user_ids_file := user_ids_file s;
     sent := o |}.

(** The bot as the process starts it: nothing registered, the files as
    the disk has them. *)
Definition start_bot (configured : bool) (sessions : gset Z) (ids : option string) : bot :=
  {| api_configured := configured; active_user_telethon_tasks := ∅;
     tasks := []; futures := []; context_user_data := ∅; conversations := ∅;
     session_files := sessions; user_ids_file := ids; sent := [] |}.

Inductive update_kind :=
  | CmdLogin
  | CmdCancel
  | CmdLogout
  | CmdOther
  | Text (t : string).

Record update := {
  chat : Z;
  effective_user : Z;
  what : update_kind
}.

(** [update.message.text] *)
Definition message_text (upd : update) : string :=
  match what upd with
  | Text t => t
  | CmdLogin => "/login"
  | CmdCancel => "/cancel"
  | CmdLogout => "/logout"
  | CmdOther => "/start"
  end.

(** [await update.message.reply_text(m)] *)
Definition reply_text (upd : update) (m : bot_reply) (s : bot) : bot :=
  set_sent (sent s ++ [(chat upd, m)]) s.

(** [context.user_data] of the user of the update. *)
Definition get_user_data (u : Z) (s : bot) : user_data :=
  default no_user_data (context_user_data s !! u).

(** [context.user_data.clear()] *)
Definition clear_user_data (u : Z) (s : bot) : bot :=
  set_user_data (delete u (context_user_data s)) s.

(** [user_id in active_user_telethon_tasks and not
    active_user_telethon_tasks[user_id].done()] *)
Definition has_running_task (u : Z) (s : bot) : bool :=
  match active_user_telethon_tasks s !! u with
  | Some t => match tasks s !! t with
              | Some tk => negb (task_done tk)
              | None => false
              end
  | None => false
  end.

Definition login_entry (upd : update) (s : bot) : conv_state * bot :=
  let user_id := effective_user upd in
  if negb (api_configured s) then (END, reply_text upd MsgApiMissing s)
  else if has_running_task user_id s then (END, reply_text upd MsgActiveSession s)
  else (AWAIT_PHONE, reply_text upd MsgAskPhone s).

(** The test of line 132. *)
Definition valid_phone (phone : string) : bool :=
  startswith "+" phone && isdigit (slice_from_1 phone) && (7 <? len phone).

(** [asyncio.create_task(run_user_instance(...))] *)
Definition create_task (u : Z) (phone : string) (s : bot) : nat * bot :=
  (length (tasks s),
   set_tasks (tasks s ++ [{| task_user := u; task_phone := phone;
                             status := Running false |}]) s).

(** [asyncio.Future()] *)
Definition new_future (s : bot) : nat * bot :=
  (length (futures s), set_futures (futures s ++ [FutPending]) s).

Definition received_phone (upd : update) (s : bot) : conv_state * bot :=
  let bot_user_id := effective_user upd in
  let phone := strip (message_text upd) in
  if negb (valid_phone phone) then (AWAIT_PHONE, reply_text upd MsgInvalidPhone s)
  else
    let '(cf, s) := new_future s in
    let '(pf, s) := new_future s in
    let ud := get_user_data bot_user_id s in
    let s := set_user_data
               (<[bot_user_id := {| phone_to_login := Some phone;
                                    code_future := Some cf;
                                    password_future := Some pf;
                                    current_login_task := current_login_task ud |}]>
                  (context_user_data s)) s in
    let s := reply_text upd (MsgAttempting phone) s in
    let '(telethon_task, s) := create_task bot_user_id phone s in
    let s := set_registry (<[bot_user_id := telethon_task]>
                             (active_user_telethon_tasks s)) s in
    let s := set_user_data
               (<[bot_user_id := {| phone_to_login := Some phone;
                                    code_future := Some cf;
                                    password_future := Some pf;
                                    current_login_task := Some telethon_task |}]>
                  (context_user_data s)) s in
    (AWAIT_CODE, reply_text upd MsgAskCode s).

(** [key in context.user_data and not context.user_data[key].done()] for
    a key that holds a future: the reference and the future, if so. *)
Definition pending_future (ref : option nat) (s : bot) : option (nat * future) :=
  match ref with
  | Some r => match futures s !! r with
              | Some f => if fut_done f then None else Some (r, f)
              | None => None
              end
  | None => None
  end.

(** [context.user_data[key].set_result(v)] on the future found above. *)
Definition fulfil (rf : nat * future) (v : option string) (s : bot) : outcome bot :=
  match set_result v (snd rf) with
  | Returns f' => Returns (set_futures (<[fst rf := f']> (futures s)) s)
  | Raises e => Raises e
  end.

Definition received_code (upd : update) (s : bot) : outcome (conv_state * bot) :=
  let code := strip (message_text upd) in
  let ud := get_user_data (effective_user upd) s in
  match pending_future (code_future ud) s with
  | Some rf =>
      match fulfil rf (Some code) s with
      | Returns s =>
          Returns (AWAIT_PASSWORD, reply_text upd MsgAsk2FA (reply_text upd MsgGotCode s))
      | Raises e => Raises e
      end
  | None => Returns (AWAIT_PASSWORD, reply_text upd MsgCodeNotAccepted s)
  end.

(** [await asyncio.wait_for(task, timeout)]: a finished task gives its
    result at once; for a running one the environment says whether it
    finishes in time, and with what.  On a timeout [wait_for] cancels
    the task before it raises. *)
Inductive await_env :=
  | Completes (r : outcome (option Z))
  | StillRunning.

Definition await_task (w : await_env) (t : nat) (s : bot) : outcome (option Z) * bot :=
  match tasks s !! t with
  | Some tk =>
      match status tk, w with
      | Finished r, _ => (r, s)
      | Running _, Completes r => (r, set_tasks (<[t := finished r tk]> (tasks s)) s)
      | Running _, StillRunning =>
          (Raises TimeoutError,
           set_tasks (<[t := finished (Raises CancelledError) tk]> (tasks s)) s)
      end
  | None => (Raises OtherError, s)
  end.

(** [active_user_telethon_tasks.pop(bot_user_id, None)], the entry
    dropped. *)
Definition pop_task (u : Z) (s : bot) : bot :=
  set_registry (delete u (active_user_telethon_tasks s)) s.

Definition received_password (w : await_env) (upd : update) (s : bot)
  : outcome (conv_state * bot) :=
  let bot_user_id := effective_user upd in
  let password := strip (message_text upd) in
  let ud := get_user_data bot_user_id s in
  match
    match pending_future (password_future ud) s with
    | Some rf =>
        match fulfil rf (Some password) s with
        | Returns s => Returns (reply_text upd MsgPasswordReceived s)
        | Raises e => Raises e
        end
    | None => Returns s
    end
  with
  | Raises e => Raises e
  | Returns s =>
      match current_login_task ud with
      | Some login_task =>
          let '(r, s) := await_task w login_task s in
          let s :=
            match r with
            | Returns (Some logged_in_telethon_user_id) =>
                let s := set_user_ids_file
                           (add_user_id_to_store logged_in_telethon_user_id
                                                 (user_ids_file s)) s in
                reply_text upd (MsgLoginSuccessful logged_in_telethon_user_id) s
            | Returns None => pop_task bot_user_id (reply_text upd MsgLoginFailed s)
            | Raises TimeoutError =>
                pop_task bot_user_id (reply_text upd MsgLoginTimedOut s)
            | Raises (PhoneCodeInvalidError as e) | Raises (PhoneNumberInvalidError as e)
            | Raises (PasswordHashInvalidError as e) =>
                pop_task bot_user_id (reply_text upd (MsgLoginFailedBecause e) s)
            | Raises e =>
                if is_Exception e
                then pop_task bot_user_id (reply_text upd (MsgUnexpectedError e) s)
                else s
            end in
          Returns (END, clear_user_data bot_user_id s)
      | None =>
          Returns (END, clear_user_data bot_user_id (reply_text upd MsgNoLoginTask s))
      end
  end.

(** [if task and not task.done(): task.cancel()] for the task popped. *)
Definition cancel_if_running (t : option nat) (s : bot) : bot :=
  match t with
  | Some r => match tasks s !! r with
              | Some tk => if task_done tk then s
                           else set_tasks (<[r := cancel tk]> (tasks s)) s
              | None => s
              end
  | None => s
  end.

Definition cancel_login (upd : update) (s : bot) : outcome (conv_state * bot) :=
  let bot_user_id := effective_user upd in
  let ud := get_user_data bot_user_id s in
  let s := reply_text upd MsgCancelled s in
  match
    match pending_future (code_future ud) s with
    | Some rf => fulfil rf None s
    | None => Returns s
    end
  with
  | Raises e => Raises e
  | Returns s =>
      match
        match pending_future (password_future ud) s with
        | Some rf => fulfil rf None s
        | None => Returns s
        end
      with
      | Raises e => Raises e
      | Returns s =>
          let task := active_user_telethon_tasks s !! bot_user_id in
          let s := pop_task bot_user_id s in
          let s := cancel_if_running task s in
          Returns (END, clear_user_data bot_user_id s)
      end
  end.

(** [logout_command].  [w] is the outcome of the wait of five seconds
    for the cancelled task, [remove_r] that of [os.remove]. *)
Definition logout_command (w : await_env) (remove_r : outcome unit)
    (upd : update) (s : bot) : bot :=
  let bot_user_id := effective_user upd in
  let task := active_user_telethon_tasks s !! bot_user_id in
  let s := pop_task bot_user_id s in
  match task with
  | Some t =>
      let s := match tasks s !! t with
               | Some tk => if task_done tk then s
                            else snd (await_task w t (cancel_if_running task s))
               | None => s
               end in
      if decide (bot_user_id ∈ session_files s) then
        match remove_r with
        | Returns _ =>
            reply_text upd MsgLoggedOutFileRemoved
              (set_session_files (session_files s ∖ {[ bot_user_id ]}) s)
        | Raises _ => reply_text upd MsgLoggedOutRemoveFailed s
        end
      else reply_text upd MsgLoggedOutNoFile s
  | None => reply_text upd MsgNotLoggedIn s
  end.

(** ** The dispatcher

    [main] registers one [ConversationHandler] (keyed by chat and user,
    [per_chat=True, per_user=True], entry point [/login], fallback
    [/cancel], no re-entry) and, after it, the [/logout] handler.  What
    happens besides the updates: the event loop runs a session task to
    its end, and the handler's idle timeout ends a conversation. *)

Record world := {
  login_wait : await_env;
  session_file_removal : outcome unit
}.

Inductive event :=
  | Incoming (upd : update) (w : world)
  | SessionEnds (t : nat) (env : client_env) (code_fate password_fate : option fate)
  | ConversationTimeout (chat_id user_id : Z).

Definition enter (upd : update) (r : conv_state * bot) : bot :=
  let key := (chat upd, effective_user upd) in
  match fst r with
  | END => set_conversations (delete key (conversations (snd r))) (snd r)
  | st => set_conversations (<[key := st]> (conversations (snd r))) (snd r)
  end.

Definition enter_unless_raised (upd : update) (s : bot)
    (r : outcome (conv_state * bot)) : bot :=
  match r with
  | Returns r => enter upd r
  | Raises _ => s
  end.

Definition handle_update (upd : update) (w : world) (s : bot) : bot :=
  match conversations s !! (chat upd, effective_user upd), what upd with
  | None, CmdLogin => enter upd (login_entry upd s)
  | Some AWAIT_PHONE, Text _ => enter upd (received_phone upd s)
  | Some AWAIT_CODE, Text _ => enter_unless_raised upd s (received_code upd s)
  | Some AWAIT_PASSWORD, Text _ =>
      enter_unless_raised upd s (received_password (login_wait w) upd s)
  | Some _, CmdCancel => enter_unless_raised upd s (cancel_login upd s)
  | _, CmdLogout => logout_command (login_wait w) (session_file_removal w) upd s
  | _, _ => s
  end.

(** The event loop runs task [t] to its end: the task finishes with what
    [run_user_instance] gives in the environment; the Telethon client
    has created the user's session file by then. *)
Definition session_ends (t : nat) (env : client_env)
    (code_fate password_fate : option fate) (s : bot) : bot :=
  match tasks s !! t with
  | Some tk =>
      match status tk with
      | Running _ =>
          let r := fst (run_user_instance env (task_phone tk)
                          (get_code_from_bot_callback code_fate)
                          (get_password_from_bot_callback password_fate)) in
          set_session_files ({[ task_user tk ]} ∪ session_files s)
            (set_tasks (<[t := finished r tk]> (tasks s)) s)
      | Finished _ => s
      end
  | None => s
  end.

Definition step (s : bot) (e : event) : bot :=
  match e with
  | Incoming upd w => handle_update upd w s
  | SessionEnds t env cf pf => session_ends t env cf pf s
  | ConversationTimeout c u => set_conversations (delete (c, u) (conversations s)) s
  end.

Definition run (s : bot) (es : list event) : bot := fold_left step es s.

(** The tasks of user [u] that are not done. *)
Definition live_tasks (u : Z) (s : bot) : list task :=
  filter (fun tk => task_user tk = u ∧ task_done tk = false) (tasks s).

(** ** Statements of the specification

    The shape the specification asks of a phone number, in its words: a
    plus sign followed by at least seven digits and nothing else. *)
Definition plus_and_digits (s : string) : Prop :=
  ∃ ds, s = String "+" ds ∧ (7 <= String.length ds)%nat
        ∧ all_chars isdigit_char ds = true.

(** A rendezvous left alone for more than [seconds]: no result and no
    cancellation arrives within that time. *)
Definition left_unfulfilled (seconds : Z) (f : fate) : Prop :=
  match f with
  | FulfilledAfter t _ | CancelledAfter t => seconds < t
  | Unfulfilled => True
  end.

(** The guarded fulfilment the handlers repeat,
    [if key in user_data and not fut.done(): fut.set_result(v)], as one
    state change; the handlers are shown to agree with it below. *)
Definition after_fulfil (ref : option nat) (v : option string) (s : bot) : bot :=
  match pending_future ref s with
  | Some rf => set_futures (<[fst rf := FutResult v]> (futures s)) s
  | None => s
  end.

(** ** Scenarios

    One user (id 42) and the collaborators' answers of an account that
    logs in for the first time, used to run the model on concrete
    inputs. *)

Definition quiet : world :=
  {| login_wait := StillRunning; session_file_removal := Returns tt |}.

Definition from_user (c : Z) (k : update_kind) : update :=
  {| chat := c; effective_user := 42; what := k |}.

Definition user_sends (c : Z) (k : update_kind) : event :=
  Incoming (from_user c k) quiet.

Definition first_login : client_env :=
  {| connect_r := Returns true;
     is_user_authorized_r := Returns false;
     send_code_request_r := Returns tt;
     sign_in_code_r := fun _ => Returns (Some 77700011);
     sign_in_password_r := fun _ => Returns (Some 77700011);
     get_me_r := Returns (Some 77700011);
     recheck_authorized_r := Returns true;
     save_session_r := Returns tt |}.

(** The same account with a second factor set. *)
Definition first_login_2fa : client_env :=
  {| connect_r := Returns true;
     is_user_authorized_r := Returns false;
     send_code_request_r := Returns tt;
     sign_in_code_r := fun _ => Raises SessionPasswordNeededError;
     sign_in_password_r := fun _ => Returns (Some 77700011);
     get_me_r := Returns (Some 77700011);
     recheck_authorized_r := Returns true;
     save_session_r := Returns tt |}.

(** [/login] and a phone number in chat 1: the handshake waits for the
    code. *)
Definition awaiting_code : bot :=
  run (start_bot true ∅ None)
      [user_sends 1 CmdLogin; user_sends 1 (Text "+12345678900")].

(** The code has been sent too: the handshake waits for the password. *)
Definition awaiting_password : bot :=
  run awaiting_code [user_sends 1 (Text "54321")].

(** A reply with the trigger to a message that carries media, and
    collaborators that all do what they are asked. *)

Definition trigger_event : new_message :=
  {| is_reply := true; raw_text := ".d"; sender_id := 77700011;
     reply_to_msg_id := 5; chat_id := 9; chat_title := Some "Holidays" |}.

Definition scratch_file : string := "user_downloads/77700011/photo.jpg".

Definition relay_ok : relay_env :=
  {| reply_r := Returns tt;
     get_messages_r := Returns (Some {| message_id := 5; has_media := true |});
     get_sender_r := Returns (Some {| first_name := Some "Ada"; last_name := None;
                                      sender_ident := 5550001 |});
     makedirs_r := Returns tt;
     download_media_r := Returns (Some scratch_file);
     download_writes := true;
     send_file_r := Returns tt;
     edit_r := fun _ => Returns tt;
     sleep_r := fun _ => Returns tt;
     delete_r := Returns tt |}.

(** The same, but the sender of the media cannot be resolved. *)
Definition sender_lookup_fails : relay_env :=
  {| reply_r := Returns tt;
     get_messages_r := Returns (Some {| message_id := 5; has_media := true |});
     get_sender_r := Raises OtherError;
     makedirs_r := Returns tt;
     download_media_r := Returns (Some scratch_file);
     download_writes := true;
     send_file_r := Returns tt;
     edit_r := fun _ => Returns tt;
     sleep_r := fun _ => Returns tt;
     delete_r := Returns tt |}.

(** The same as [relay_ok], but the forward to the archive fails. *)
Definition forward_fails : relay_env :=
  {| reply_r := Returns tt;
     get_messages_r := Returns (Some {| message_id := 5; has_media := true |});
     get_sender_r := Returns None;
     makedirs_r := Returns tt;
     download_media_r := Returns (Some scratch_file);
     download_writes := true;
     send_file_r := Raises OtherError;
     edit_r := fun _ => Returns tt;
     sleep_r := fun _ => Returns tt;
     delete_r := Returns tt |}.

Definition empty_disk : relay_state :=
  {| files := ∅; dirs := ∅; rcalls := [] |}.

(** The ten decimal digits, the characters [str] of an [int] is made
    of (besides the sign). *)
Definition decimal_char (a : ascii) : bool :=
  let n := N_of_ascii a in ((48 <=? n) && (n <=? 57))%N.

Definition no_space (s : string) : bool :=
  all_chars (fun a => negb (isspace_char a)) s.

(** The lines of a file that lists the integers [zs], one on a line. *)
Definition lines_of (zs : list Z) : list string :=
  (fun z => py_str z ++ String LF EmptyString) <$> zs.

(** The file lists [zs]: it holds their lines, or it does not exist and
    there is none. *)
Definition lists (file : option string) (zs : list Z) : Prop :=
  file = Some (write_ids zs) ∨ (file = None ∧ zs = []).

(** ** More scenarios *)

(** An account whose stored session is still valid. *)
Definition stored_login : client_env :=
  {| connect_r := Returns true;
     is_user_authorized_r := Returns true;
     send_code_request_r := Raises OtherError;
     sign_in_code_r := fun _ => Raises OtherError;
     sign_in_password_r := fun _ => Raises OtherError;
     get_me_r := Returns (Some 77700011);
     recheck_authorized_r := Returns true;
     save_session_r := Returns tt |}.

(** An account for which every code is refused. *)
Definition wrong_code : client_env :=
  {| connect_r := Returns true;
     is_user_authorized_r := Returns false;
     send_code_request_r := Returns tt;
     sign_in_code_r := fun _ => Raises PhoneCodeInvalidError;
     sign_in_password_r := fun _ => Raises OtherError;
     get_me_r := Returns None;
     recheck_authorized_r := Returns false;
     save_session_r := Returns tt |}.

(** An account with a second factor, for which every password is
    refused. *)
Definition wrong_password : client_env :=
  {| connect_r := Returns true;
     is_user_authorized_r := Returns false;
     send_code_request_r := Returns tt;
     sign_in_code_r := fun _ => Raises SessionPasswordNeededError;
     sign_in_password_r := fun _ => Raises PasswordHashInvalidError;
     get_me_r := Returns None;
     recheck_authorized_r := Returns false;
     save_session_r := Returns tt |}.

(** The same as [relay_ok], but the message replied to is plain text. *)
Definition text_only : relay_env :=
  {| reply_r := Returns tt;
     get_messages_r := Returns (Some {| message_id := 5; has_media := false |});
     get_sender_r := Returns None;
     makedirs_r := Returns tt;
     download_media_r := Returns (Some scratch_file);
     download_writes := true;
     send_file_r := Returns tt;
     edit_r := fun _ => Returns tt;
     sleep_r := fun _ => Returns tt;
     delete_r := Returns tt |}.


(** The same as [relay_ok], but the download fails. *)
Definition download_fails : relay_env :=
  {| reply_r := Returns tt;
     get_messages_r := Returns (Some {| message_id := 5; has_media := true |});
     get_sender_r := Returns None;
     makedirs_r := Returns tt;
     download_media_r := Raises OtherError;
     download_writes := false;
     send_file_r := Returns tt;
     edit_r := fun _ => Returns tt;
     sleep_r := fun _ => Returns tt;
     delete_r := Returns tt |}.

(** The session task of [awaiting_code] has run to its end without a
    code; the Telethon client has created the session file by then. *)
Definition after_session_task : bot :=
  run awaiting_code [SessionEnds 0 first_login (Some Unfulfilled) (Some Unfulfilled)].

(** ** Ownership of tasks and futures

    The registry and the user data refer to tasks and futures by
    their index in the two heaps.  The predicates below say whose they
    are, and what an update of one user may touch. *)

(** Task [t] of the heap exists and was created for user [u]. *)
Definition owns_task (s : bot) (u : Z) (t : nat) : Prop :=
  ∃ tk, tasks s !! t = Some tk ∧ task_user tk = u.

(** The futures a user's data refers to. *)
Definition future_refs (d : user_data) : list nat :=
  option_list (code_future d) ++ option_list (password_future d).

(** What the handlers keep true of the registry, the user data and the
    two heaps: the task registered for a user, and the login task of
    the user's data, are tasks of that user; the futures of the user's
    data exist, are two, and are those of no other user. *)
Definition consistent (s : bot) : Prop :=
  (∀ u t, active_user_telethon_tasks s !! u = Some t → owns_task s u t)
  ∧ (∀ u d t, context_user_data s !! u = Some d →
       current_login_task d = Some t → owns_task s u t)
  ∧ (∀ u d r, context_user_data s !! u = Some d →
       r ∈ future_refs d → (r < length (futures s))%nat)
  ∧ (∀ u u' d d' r, context_user_data s !! u = Some d →
       context_user_data s !! u' = Some d' →
       r ∈ future_refs d → r ∈ future_refs d' → u = u')
  ∧ (∀ u d, context_user_data s !! u = Some d → NoDup (future_refs d)).

(** What an update of user [u] may change: the entries of [u] in the
    registry, the user data and the session files, the conversation of
    the update, the tasks registered for [u] or named by the data of
    [u], and the futures the data of [u] names. *)
Definition footprint (upd : update) (s s' : bot) : Prop :=
  let u := effective_user upd in
  (∀ u', u' ≠ u →
     active_user_telethon_tasks s' !! u' = active_user_telethon_tasks s !! u')
  ∧ (∀ u', u' ≠ u → context_user_data s' !! u' = context_user_data s !! u')
  ∧ (∀ u', u' ≠ u → u' ∈ session_files s' ↔ u' ∈ session_files s)
  ∧ (∀ k, k ≠ (chat upd, u) → conversations s' !! k = conversations s !! k)
  ∧ (∀ t tk, tasks s !! t = Some tk →
       ∃ tk', tasks s' !! t = Some tk' ∧ task_user tk' = task_user tk
              ∧ (tk' = tk ∨ active_user_telethon_tasks s !! u = Some t
                 ∨ current_login_task (get_user_data u s) = Some t))
  ∧ (∀ r f, futures s !! r = Some f →
       ∃ f', futures s' !! r = Some f'
             ∧ (f' = f ∨ r ∈ future_refs (get_user_data u s))).

(** The update adds nothing for its user: an entry of the user in the
    registry or in the user data was there before. *)
Definition shrinks (u : Z) (s s' : bot) : Prop :=
  (∀ t, active_user_telethon_tasks s' !! u = Some t →
        active_user_telethon_tasks s !! u = Some t)
  ∧ (∀ d, context_user_data s' !! u = Some d → context_user_data s !! u = Some d).

(* ================================================================== *)
(** * Properties *)

(** ** Sanity checks of the embedding on concrete inputs *)

Example strip_removes_outer_whitespace :
  strip (String LF " +12 34 " ++ String CR EmptyString) = "+12 34".
Proof. reflexivity. Qed.

Example readlines_keeps_terminators :
  readlines ("12" ++ String LF "7" ++ String LF "x")
  = ["12" ++ String LF ""; "7" ++ String LF ""; "x"].
Proof. reflexivity. Qed.

Example store_after_some_additions :
  store_after [30; 7; 30; 100; 7] = Some (write_ids [7; 30; 100]).
Proof. vm_compute. reflexivity. Qed.

Example foreign_lines_are_dropped :
  add_user_id_to_store 4 (Some ("5" ++ String LF "3" ++ String CR "-2"))
  = Some (write_ids [3; 4; 5]).
Proof. vm_compute. reflexivity. Qed.

(** ** Phone numbers *)

Lemma valid_phone_plus_and_digits (s : string) :
  valid_phone s = true ↔ plus_and_digits s.
Proof.
  unfold valid_phone, plus_and_digits, len. split.
  - intros H. apply andb_true_iff in H as [H Hlen].
    apply andb_true_iff in H as [Hplus Hdig].
    destruct s as [|a t]; [discriminate|]. simpl in *.
    apply bool_decide_eq_true in Hplus as ->.
    exists t. split; [reflexivity|]. split.
    + apply Z.ltb_lt in Hlen. lia.
    + destruct t; [discriminate|exact Hdig].
  - intros (ds & -> & Hlen & Hdig). simpl.
    destruct ds as [|d ds]; [simpl in Hlen; lia|].
    unfold isdigit. rewrite Hdig. simpl.
    apply Z.ltb_lt. simpl in Hlen. lia.
Qed.

Lemma received_phone_valid (upd : update) (s : bot) :
  valid_phone (strip (message_text upd)) = true →
  fst (received_phone upd s) = AWAIT_CODE.
Proof. intros H. unfold received_phone. rewrite H. reflexivity. Qed.

Lemma received_phone_invalid (upd : update) (s : bot) :
  valid_phone (strip (message_text upd)) = false →
  received_phone upd s = (AWAIT_PHONE, reply_text upd MsgInvalidPhone s).
Proof. intros H. unfold received_phone. rewrite H. reflexivity. Qed.

(** C7, as the code has it: the text is stripped of the white space
    around it first.  If what remains is a plus sign followed by at
    least seven digits and nothing else, [received_phone] moves to
    [AWAIT_CODE]; for every other text it stays in [AWAIT_PHONE], and
    all it does is to send the prompt for another number. *)
Theorem received_phone_advances_on_stripped_shape (upd : update) (s : bot) :
  (plus_and_digits (strip (message_text upd)) →
     fst (received_phone upd s) = AWAIT_CODE)
  ∧ (¬ plus_and_digits (strip (message_text upd)) →
     received_phone upd s = (AWAIT_PHONE, reply_text upd MsgInvalidPhone s)).
Proof.
  split; intros H.
  - apply received_phone_valid, valid_phone_plus_and_digits, H.
  - apply received_phone_invalid.
    destruct (valid_phone (strip (message_text upd))) eqn:E; [|reflexivity].
    destruct H. apply valid_phone_plus_and_digits, E.
Qed.

(** C7 as it is stated fails: a text that begins with a space is not a
    plus sign followed by digits, and yet it moves the handshake on. *)
Lemma received_phone_accepts_padded_number :
  ¬ plus_and_digits " +1234567"
  ∧ fst (received_phone {| chat := 1; effective_user := 42;
                           what := Text " +1234567" |}
                        (start_bot true ∅ None)) = AWAIT_CODE.
Proof.
  split; [|reflexivity].
  intros (ds & Heq & _). discriminate Heq.
Qed.

(** ** Logging out *)

(** C10: with no registry entry for the user, [/logout] leaves the
    session files alone (and every other part of the state) and only
    tells the user that they were not logged in; so a session file is
    removed only when an entry was found. *)
Theorem logout_without_entry_keeps_session_file
    (w : await_env) (remove_r : outcome unit) (upd : update) (s : bot) :
  active_user_telethon_tasks s !! effective_user upd = None →
  logout_command w remove_r upd s
  = reply_text upd MsgNotLoggedIn s
  ∧ session_files (logout_command w remove_r upd s) = session_files s
  ∧ sent (logout_command w remove_r upd s) = (sent s ++ [(chat upd, MsgNotLoggedIn)])%list.
Proof.
  intros H. unfold logout_command. rewrite H.
  assert (pop_task (effective_user upd) s = s) as ->.
  { unfold pop_task. rewrite delete_id by exact H. destruct s; reflexivity. }
  repeat split.
Qed.

Lemma logout_after_restart_keeps_session_file :
  let s := start_bot true {[ 42 ]} None in
  let upd := {| chat := 1; effective_user := 42; what := CmdLogout |} in
  logout_command StillRunning (Returns tt) upd s = reply_text upd MsgNotLoggedIn s
  ∧ session_files (logout_command StillRunning (Returns tt) upd s) = {[ 42 ]}
  ∧ sent (logout_command StillRunning (Returns tt) upd s) = [(1, MsgNotLoggedIn)].
Proof.
  exact (logout_without_entry_keeps_session_file StillRunning (Returns tt)
           {| chat := 1; effective_user := 42; what := CmdLogout |}
           (start_bot true {[ 42 ]} None) eq_refl).
Defined.

(** ** Rendezvous futures on the coordinator's side *)

Lemma pending_future_Some (ref : option nat) (s : bot) (r : nat) (f : future) :
  pending_future ref s = Some (r, f) →
  ref = Some r ∧ futures s !! r = Some f ∧ f = FutPending.
Proof.
  unfold pending_future. destruct ref as [r0|]; [|discriminate].
  destruct (futures s !! r0) as [f0|] eqn:E; [|discriminate].
  destruct f0; simpl; intros [= <- <-]; auto.
Qed.

Lemma guarded_fulfil (ref : option nat) (v : option string) (s : bot) :
  match pending_future ref s with
  | Some rf => fulfil rf v s
  | None => Returns s
  end = Returns (after_fulfil ref v s).
Proof.
  unfold after_fulfil.
  destruct (pending_future ref s) as [[r f]|] eqn:E; [|reflexivity].
  apply pending_future_Some in E as (_ & _ & ->). reflexivity.
Qed.

(** What [after_fulfil] does to the heap: the future named by [ref], if
    it is pending, gets the result; every other one is left as it is. *)
Lemma lookup_after_fulfil (ref : option nat) (v : option string) (s : bot)
    (r : nat) (f : future) :
  futures s !! r = Some f →
  futures (after_fulfil ref v s) !! r
  = Some (if decide (ref = Some r ∧ fut_done f = false) then FutResult v else f).
Proof.
  intros Hf. unfold after_fulfil.
  destruct (pending_future ref s) as [[r0 f0]|] eqn:E.
  - apply pending_future_Some in E as (-> & Hr0 & ->). simpl.
    destruct (decide (r0 = r)) as [->|Hne].
    + rewrite list_lookup_insert_eq by (eapply lookup_lt_Some; eauto).
      rewrite Hf in Hr0. injection Hr0 as ->.
      rewrite decide_True; auto.
    + rewrite list_lookup_insert_ne by exact Hne.
      rewrite decide_False; [exact Hf|]. intros [[= ->] _]. contradiction.
  - rewrite decide_False; [exact Hf|]. intros [-> Hp].
    unfold pending_future in E. rewrite Hf, Hp in E. discriminate.
Qed.

Lemma lookup_after_fulfil_done (ref : option nat) (v : option string) (s : bot)
    (r : nat) (f : future) :
  futures s !! r = Some f → fut_done f = true →
  futures (after_fulfil ref v s) !! r = Some f.
Proof.
  intros Hf Hd. rewrite (lookup_after_fulfil _ _ _ _ _ Hf).
  rewrite decide_False; [reflexivity|]. intros [_ H]. congruence.
Qed.

Lemma after_fulfil_frame (ref : option nat) (v : option string) (s : bot) :
  tasks (after_fulfil ref v s) = tasks s
  ∧ active_user_telethon_tasks (after_fulfil ref v s) = active_user_telethon_tasks s
  ∧ context_user_data (after_fulfil ref v s) = context_user_data s
  ∧ conversations (after_fulfil ref v s) = conversations s
  ∧ sent (after_fulfil ref v s) = sent s
  ∧ session_files (after_fulfil ref v s) = session_files s
  ∧ user_ids_file (after_fulfil ref v s) = user_ids_file s.
Proof. unfold after_fulfil. destruct (pending_future ref s); repeat split. Qed.

Lemma futures_await_task (w : await_env) (t : nat) (s : bot) :
  futures (snd (await_task w t s)) = futures s.
Proof.
  unfold await_task. destruct (tasks s !! t) as [tk|]; [|reflexivity].
  destruct (status tk), w; reflexivity.
Qed.

Lemma futures_cancel_if_running (t : option nat) (s : bot) :
  futures (cancel_if_running t s) = futures s.
Proof.
  unfold cancel_if_running. destruct t as [r|]; [|reflexivity].
  destruct (tasks s !! r) as [tk|]; [|reflexivity].
  destruct (task_done tk); reflexivity.
Qed.

(** The three handlers that fulfil a future, in closed form. *)

Lemma received_code_unfold (upd : update) (s : bot) :
  received_code upd s
  = Returns (AWAIT_PASSWORD,
      match pending_future (code_future (get_user_data (effective_user upd) s)) s with
      | Some _ =>
          reply_text upd MsgAsk2FA
            (reply_text upd MsgGotCode
               (after_fulfil (code_future (get_user_data (effective_user upd) s))
                             (Some (strip (message_text upd))) s))
      | None => reply_text upd MsgCodeNotAccepted s
      end).
Proof.
  unfold received_code, after_fulfil.
  destruct (pending_future _ s) as [[r f]|] eqn:E; [|reflexivity].
  apply pending_future_Some in E as (_ & _ & ->). reflexivity.
Qed.

Lemma cancel_login_unfold (upd : update) (s : bot) :
  let u := effective_user upd in
  let ud := get_user_data u s in
  cancel_login upd s
  = Returns (END,
      clear_user_data u
        (cancel_if_running (active_user_telethon_tasks s !! u)
           (pop_task u
              (after_fulfil (password_future ud) None
                 (after_fulfil (code_future ud) None
                    (reply_text upd MsgCancelled s)))))).
Proof.
  intros u ud. unfold cancel_login. fold u. fold ud.
  rewrite guarded_fulfil. rewrite guarded_fulfil.
  destruct (after_fulfil_frame (password_future ud) None
              (after_fulfil (code_future ud) None (reply_text upd MsgCancelled s)))
    as (_ & -> & _).
  destruct (after_fulfil_frame (code_future ud) None (reply_text upd MsgCancelled s))
    as (_ & -> & _).
  reflexivity.
Qed.

(** The state in which [received_password] awaits the login task. *)
Lemma received_password_returns (w : await_env) (upd : update) (s : bot) :
  ∃ s', received_password w upd s = Returns (END, s')
        ∧ ∀ r f, futures s !! r = Some f →
            futures s' !! r
            = Some (if decide (password_future (get_user_data (effective_user upd) s)
                               = Some r ∧ fut_done f = false)
                    then FutResult (Some (strip (message_text upd))) else f).
Proof.
  unfold received_password.
  set (ud := get_user_data (effective_user upd) s).
  set (pw := strip (message_text upd)).
  assert (∃ s1, match pending_future (password_future ud) s with
                | Some rf =>
                    match fulfil rf (Some pw) s with
                    | Returns s0 => Returns (reply_text upd MsgPasswordReceived s0)
                    | Raises e => Raises e
                    end
                | None => Returns s
                end = Returns s1
                ∧ futures s1 = futures (after_fulfil (password_future ud) (Some pw) s))
    as (s1 & -> & Hs1).
  { unfold after_fulfil.
    destruct (pending_future (password_future ud) s) as [[r f]|] eqn:E.
    - apply pending_future_Some in E as (_ & _ & ->). eexists; split; reflexivity.
    - eexists; split; reflexivity. }
  destruct (current_login_task ud) as [t|].
  - pose proof (futures_await_task w t s1) as Hw.
    destruct (await_task w t s1) as [r s2]. simpl in Hw.
    eexists. split; [reflexivity|].
    intros r0 f Hf. rewrite <- (lookup_after_fulfil _ _ _ _ _ Hf), <- Hs1, <- Hw.
    destruct r as [[id|]|e]; [reflexivity|reflexivity|].
    destruct e; reflexivity.
  - eexists. split; [reflexivity|].
    intros r0 f Hf. rewrite <- (lookup_after_fulfil _ _ _ _ _ Hf), <- Hs1.
    reflexivity.
Qed.

(** C2: a rendezvous future that is done (it holds a value or "none",
    or was cancelled) is final for the coordinator.  Whatever the
    update, [received_code], [received_password] and [cancel_login]
    return without raising and leave that future as it was; so each of
    the two futures of a login attempt is fulfilled at most once. *)
Theorem fulfilled_future_is_final
    (upd : update) (w : await_env) (s : bot) (r : nat) (f : future) :
  futures s !! r = Some f →
  fut_done f = true →
  (∃ st s', received_code upd s = Returns (st, s') ∧ futures s' !! r = Some f)
  ∧ (∃ st s', received_password w upd s = Returns (st, s') ∧ futures s' !! r = Some f)
  ∧ (∃ st s', cancel_login upd s = Returns (st, s') ∧ futures s' !! r = Some f).
Proof.
  intros Hf Hd. split; [|split].
  - rewrite received_code_unfold. do 2 eexists. split; [reflexivity|].
    destruct (pending_future _ s); simpl; [|exact Hf].
    apply lookup_after_fulfil_done; assumption.
  - destruct (received_password_returns w upd s) as (s' & Heq & Hfut).
    exists END, s'. split; [exact Heq|].
    rewrite (Hfut _ _ Hf). rewrite decide_False; [reflexivity|].
    intros [_ H]. congruence.
  - rewrite cancel_login_unfold. do 2 eexists. split; [reflexivity|].
    unfold clear_user_data, pop_task. simpl.
    rewrite futures_cancel_if_running. simpl.
    apply lookup_after_fulfil_done; [|exact Hd].
    apply lookup_after_fulfil_done; [exact Hf|exact Hd].
Qed.

Lemma second_fulfilment_is_noop :
  (∃ st s', received_code (from_user 1 (Text "99999")) awaiting_password
            = Returns (st, s')
            ∧ futures s' !! 0%nat = Some (FutResult (Some "54321")))
  ∧ (∃ st s', received_password StillRunning (from_user 1 (Text "99999"))
                awaiting_password = Returns (st, s')
              ∧ futures s' !! 0%nat = Some (FutResult (Some "54321")))
  ∧ (∃ st s', cancel_login (from_user 1 (Text "99999")) awaiting_password
              = Returns (st, s')
              ∧ futures s' !! 0%nat = Some (FutResult (Some "54321"))).
Proof.
  exact (fulfilled_future_is_final (from_user 1 (Text "99999")) StillRunning
           awaiting_password 0%nat (FutResult (Some "54321")) eq_refl eq_refl).
Defined.

(** ** Cancelling a handshake *)







(** ** A code that never arrives *)

Lemma callback_of_unfulfilled_future (f : fate) :
  left_unfulfilled 300 f → rendezvous_callback (Some f) = Returns None.
Proof.
  unfold rendezvous_callback, wait_for.
  destruct f as [t v|t|]; simpl; intros H; [| |reflexivity].
  - destruct (Z.ltb_spec t 300); [lia|reflexivity].
  - destruct (Z.ltb_spec t 300); [lia|reflexivity].
Qed.



Lemma run_cons (s : bot) (e : event) (es : list event) :
  run s (e :: es) = run (step s e) es.
Proof. reflexivity. Qed.







(** ** One session per user *)

(** While the task registered for the user is not done, [/login] is
    refused with a message and the conversation does not start. *)
Lemma login_refused_while_task_runs (upd : update) (s : bot) :
  has_running_task (effective_user upd) s = true →
  login_entry upd s
  = (END, reply_text upd (if api_configured s then MsgActiveSession
                          else MsgApiMissing) s).
Proof.
  intros H. unfold login_entry. rewrite H.
  destruct (api_configured s); reflexivity.
Qed.

(** C1 fails on the code.  The check for a running task is made by
    [login_entry] only; [received_phone] registers without looking.  The
    conversations are keyed by chat and user, so one user can pass the
    check in two chats before a task exists, and then send a phone
    number in each: the second registration replaces the first in the
    registry, the first task is neither cancelled nor done, and two
    tasks of user 42 are live. *)
Theorem two_chats_leave_two_live_tasks :
  live_tasks 42 (run (start_bot true ∅ None)
                   [user_sends 1 CmdLogin; user_sends 2 CmdLogin;
                    user_sends 1 (Text "+12345678900");
                    user_sends 2 (Text "+12345678900")])
  = [ {| task_user := 42; task_phone := "+12345678900"; status := Running false |};
      {| task_user := 42; task_phone := "+12345678900"; status := Running false |} ]
  ∧ active_user_telethon_tasks
      (run (start_bot true ∅ None)
         [user_sends 1 CmdLogin; user_sends 2 CmdLogin;
          user_sends 1 (Text "+12345678900");
          user_sends 2 (Text "+12345678900")]) !! 42 = Some 1%nat
  ∧ sent (run (start_bot true ∅ None)
            [user_sends 1 CmdLogin; user_sends 2 CmdLogin;
             user_sends 1 (Text "+12345678900");
             user_sends 2 (Text "+12345678900")])
    = [(1, MsgAskPhone); (2, MsgAskPhone);
       (1, MsgAttempting "+12345678900"); (1, MsgAskCode);
       (2, MsgAttempting "+12345678900"); (2, MsgAskCode)].
Proof. vm_compute. repeat split. Qed.

(** The same gap without a second chat: a login that succeeded leaves a
    registered task that is done (it has returned the identity, the
    watch phase runs on), so the check of [login_entry] passes and
    [/login] starts another handshake for the account being watched. *)
Example login_accepted_again_while_watching :
  watching (snd (run_user_instance first_login "+12345678900"
                   (get_code_from_bot_callback
                      (Some (FulfilledAfter 5 (Some "54321"))))
                   (get_password_from_bot_callback (Some Unfulfilled)))) = true
  ∧ sent (run awaiting_password
            [SessionEnds 0 first_login (Some (FulfilledAfter 5 (Some "54321")))
                         (Some Unfulfilled);
             user_sends 1 (Text "none");
             user_sends 1 CmdLogin])
    = [(1, MsgAskPhone); (1, MsgAttempting "+12345678900"); (1, MsgAskCode);
       (1, MsgGotCode); (1, MsgAsk2FA); (1, MsgPasswordReceived);
       (1, MsgLoginSuccessful 77700011); (1, MsgAskPhone)]
  ∧ conversations (run awaiting_password
                     [SessionEnds 0 first_login
                                  (Some (FulfilledAfter 5 (Some "54321")))
                                  (Some Unfulfilled);
                      user_sends 1 (Text "none");
                      user_sends 1 CmdLogin]) !! (1, 42) = Some AWAIT_PHONE
  ∧ user_ids_file (run awaiting_password
                     [SessionEnds 0 first_login
                                  (Some (FulfilledAfter 5 (Some "54321")))
                                  (Some Unfulfilled);
                      user_sends 1 (Text "none");
                      user_sends 1 CmdLogin])
    = Some (write_ids [77700011]).
Proof. vm_compute. repeat split. Qed.

(** ** Terminal paths of the session task *)

(** Case analysis along the control flow of the session task. *)
Ltac session_cases :=
  repeat match goal with
         | _ => progress cbn [connected calls fst snd]
         | |- context [match ?x with _ => _ end] =>
             lazymatch x with
             | context [match _ with _ => _ end] => fail
             | _ => destruct x eqn:?; try congruence
             end
         end.

(** Whatever the collaborators do, a session task that ends before the
    watch phase by returning, or by raising anything but
    [CancelledError], has no connection left. *)
Lemma run_user_instance_disconnects_unless_cancelled
    (env : client_env) (phone : string)
    (code_cb password_cb : outcome (option string)) :
  fst (run_user_instance env phone code_cb password_cb) ≠ Raises CancelledError →
  watching (snd (run_user_instance env phone code_cb password_cb)) = false →
  connected (snd (run_user_instance env phone code_cb password_cb)) = false.
Proof.
  unfold run_user_instance, run_user_instance_body, login_with_code,
    not_authorized_or_no_me, disconnect_if_connected, is_connected, disconnect,
    connect, finish, bind, try_except, call, when, on_Exception, pure, return_,
    raise, log_call, new_client, is_Exception.
  session_cases.
  all: intros Hr Hw;
    first [reflexivity | congruence | (vm_compute in Hw; discriminate Hw)
          | match goal with
            | H : negb ?a = true |- ?a = false =>
                destruct a; [discriminate H|reflexivity]
            end].
Qed.

(** C3 fails on the code.  A task cancelled while it waits for the code,
    or for the password, gets [CancelledError] at the wait; no handler
    of [run_user_instance] catches it ([except Exception] does not), so
    the task ends there, before the watch phase, with the client still
    connected and no call of [disconnect]. *)
Theorem cancelled_wait_leaves_connection_open :
  run_user_instance first_login "+12345678900"
    (get_code_from_bot_callback (Some (CancelledAfter 10)))
    (get_password_from_bot_callback (Some Unfulfilled))
  = (Raises CancelledError,
     {| connected := true;
        calls := [CConnect; CIsUserAuthorized; CSendCodeRequest "+12345678900"] |})
  ∧ run_user_instance first_login_2fa "+12345678900"
      (get_code_from_bot_callback (Some (FulfilledAfter 10 (Some "54321"))))
      (get_password_from_bot_callback (Some (CancelledAfter 10)))
    = (Raises CancelledError,
       {| connected := true;
          calls := [CConnect; CIsUserAuthorized; CSendCodeRequest "+12345678900";
                    CSignInCode "+12345678900" "54321"] |}).
Proof. split; reflexivity. Qed.

(** ** Errors in the relay handler *)

(** C4 fails on the code.  [get_sender] is awaited outside any [try]: an
    error there leaves the handler as an exception, and the status
    message still says that the request is being processed.  (The edits
    of the status message made outside a [try], or inside an [except]
    clause, escape in the same way.) *)
Theorem sender_lookup_error_escapes_handler :
  handle_outgoing_reply sender_lookup_fails ".d" 77700011 trigger_event empty_disk
  = (Raises OtherError,
     {| files := ∅; dirs := ∅;
        rcalls := [RReply StProcessing; RGetMessages 9 5; RGetSender] |}).
Proof. reflexivity. Qed.

(** ** The user-id list *)

Lemma decimal_char_facts (a : ascii) :
  decimal_char a = true → isdigit_char a = true ∧ isspace_char a = false.
Proof.
  destruct a as [[|] [|] [|] [|] [|] [|] [|] [|]]; vm_compute; intros H;
    first [discriminate H | split; reflexivity].
Qed.

Lemma not_space_not_newline (a : ascii) :
  isspace_char a = false → a ≠ LF ∧ a ≠ CR.
Proof.
  destruct a as [[|] [|] [|] [|] [|] [|] [|] [|]]; vm_compute; intros H;
    first [discriminate H | split; discriminate].
Qed.

Lemma all_chars_impl (p q : ascii → bool) (s : string) :
  (∀ a, p a = true → q a = true) → all_chars p s = true → all_chars q s = true.
Proof.
  intros Hpq. induction s as [|a t IH]; simpl; [reflexivity|].
  intros [Ha Ht]%andb_true_iff. rewrite (Hpq _ Ha), (IH Ht). reflexivity.
Qed.

Lemma all_chars_app (p : ascii → bool) (s t : string) :
  all_chars p (s ++ t) = all_chars p s && all_chars p t.
Proof.
  induction s as [|a s IH]; simpl; [reflexivity|].
  rewrite IH, andb_assoc. reflexivity.
Qed.

Lemma string_of_uint_decimal (d : Decimal.uint) :
  all_chars decimal_char (NilEmpty.string_of_uint d) = true.
Proof. induction d; simpl; auto. Qed.

Lemma nilzero_string_of_uint_decimal (d : Decimal.uint) :
  all_chars decimal_char (NilZero.string_of_uint d) = true
  ∧ NilZero.string_of_uint d ≠ "".
Proof.
  destruct d; simpl; (split; [try apply string_of_uint_decimal; reflexivity
                            |discriminate]).
Qed.

(** [str] of an [int]: digits, after a minus sign if it is negative. *)
Lemma py_str_shape (z : Z) :
  (0 ≤ z ∧ py_str z ≠ "" ∧ all_chars decimal_char (py_str z) = true)
  ∨ (z < 0 ∧ ∃ ds, py_str z = String "-" ds ∧ all_chars decimal_char ds = true).
Proof.
  unfold py_str. destruct z as [|p|p]; simpl.
  - left. split; [lia|]. split; [discriminate|reflexivity].
  - left. split; [lia|].
    destruct (nilzero_string_of_uint_decimal (Pos.to_uint p)); auto.
  - right. split; [lia|]. eexists. split; [reflexivity|].
    apply nilzero_string_of_uint_decimal.
Qed.

Lemma decimal_no_space (s : string) :
  all_chars decimal_char s = true → no_space s = true.
Proof.
  apply all_chars_impl. intros a Ha.
  destruct (decimal_char_facts a Ha) as [_ ->]. reflexivity.
Qed.

Lemma py_str_no_space (z : Z) : no_space (py_str z) = true ∧ py_str z ≠ "".
Proof.
  destruct (py_str_shape z) as [(_ & Hne & Hd)|(_ & ds & -> & Hd)].
  - split; [apply decimal_no_space, Hd|exact Hne].
  - split; [|discriminate]. unfold no_space. simpl.
    apply (decimal_no_space ds Hd).
Qed.

Lemma isdigit_py_str (z : Z) : isdigit (py_str z) = true ↔ 0 ≤ z.
Proof.
  destruct (py_str_shape z) as [(Hz & Hne & Hd)|(Hz & ds & -> & Hd)].
  - split; [intros _; exact Hz|intros _].
    unfold isdigit. destruct (py_str z) as [|c t]; [congruence|].
    revert Hd. apply all_chars_impl. intros d Hdec.
    apply (decimal_char_facts d Hdec).
  - split; [discriminate|lia].
Qed.

Lemma py_int_py_str (z : Z) : py_int (py_str z) = Some z.
Proof.
  unfold py_int, py_str. rewrite NilZero.isi.
  - simpl. f_equal. apply DecimalZ.of_to.
  - destruct z; simpl; intros [= H]; revert H;
      first [discriminate | apply DecimalPos.Unsigned.to_uint_nonnil].
  - destruct z; simpl; intros [= H]; revert H;
      first [discriminate | apply DecimalPos.Unsigned.to_uint_nonnil].
Qed.

Global Instance py_str_inj : Inj (=) (=) py_str.
Proof.
  intros x y H. apply (f_equal py_int) in H.
  rewrite !py_int_py_str in H. congruence.
Qed.

Lemma lstrip_no_space (s t : string) :
  no_space s = true → s ≠ "" → lstrip (s ++ t) = s ++ t.
Proof.
  destruct s as [|a s]; [congruence|]. unfold no_space. simpl.
  intros [Ha _]%andb_true_iff _. apply negb_true_iff in Ha. rewrite Ha.
  reflexivity.
Qed.

Lemma rstrip_line (s : string) :
  no_space s = true → rstrip (s ++ String LF "") = s.
Proof.
  unfold no_space. induction s as [|a t IH]; simpl; [reflexivity|].
  intros [Ha Ht]%andb_true_iff. apply negb_true_iff in Ha.
  rewrite (IH Ht), Ha. destruct t; reflexivity.
Qed.

Lemma strip_line (z : Z) : strip (py_str z ++ String LF "") = py_str z.
Proof.
  destruct (py_str_no_space z) as [Hs Hne]. unfold strip.
  rewrite lstrip_no_space by assumption. apply rstrip_line, Hs.
Qed.

Lemma translate_newlines_without_cr (s : string) :
  all_chars (fun a => negb (bool_decide (a = CR))) s = true →
  translate_newlines s = s.
Proof.
  induction s as [|a t IH]; simpl; [reflexivity|].
  intros [Ha Ht]%andb_true_iff. apply negb_true_iff in Ha.
  rewrite Ha, (IH Ht). reflexivity.
Qed.

Lemma readlines_line (s rest : string) :
  all_chars (fun a => negb (bool_decide (a = LF))) s = true →
  readlines (s ++ String LF rest) = (s ++ String LF "") :: readlines rest.
Proof.
  induction s as [|a t IH]; simpl; [reflexivity|].
  intros [Ha Ht]%andb_true_iff. apply negb_true_iff in Ha.
  rewrite Ha, (IH Ht). reflexivity.
Qed.

Lemma py_str_without_newlines (z : Z) :
  all_chars (fun a => negb (bool_decide (a = LF))) (py_str z) = true
  ∧ all_chars (fun a => negb (bool_decide (a = CR))) (py_str z) = true.
Proof.
  destruct (py_str_no_space z) as [Hs _].
  split; revert Hs; apply all_chars_impl; intros a Ha;
    apply negb_true_iff in Ha; apply not_space_not_newline in Ha as [? ?];
    apply negb_true_iff, bool_decide_eq_false; assumption.
Qed.

Lemma write_ids_cons (z : Z) (zs : list Z) :
  write_ids (z :: zs) = py_str z ++ String LF (write_ids zs).
Proof. reflexivity. Qed.

Lemma translate_newlines_write_ids (zs : list Z) :
  translate_newlines (write_ids zs) = write_ids zs.
Proof.
  apply translate_newlines_without_cr.
  induction zs as [|z zs IH]; [reflexivity|].
  rewrite write_ids_cons, all_chars_app. simpl. rewrite IH.
  destruct (py_str_without_newlines z) as [_ ->]. reflexivity.
Qed.

(** Reading back what was written gives one line for each integer. *)
Lemma readlines_write_ids (zs : list Z) :
  readlines (translate_newlines (write_ids zs)) = lines_of zs.
Proof.
  rewrite translate_newlines_write_ids.
  induction zs as [|z zs IH]; [reflexivity|].
  rewrite write_ids_cons, readlines_line by apply py_str_without_newlines.
  rewrite IH. reflexivity.
Qed.

Lemma strip_lines_of (zs : list Z) : strip <$> lines_of zs = py_str <$> zs.
Proof.
  unfold lines_of. rewrite <- list_fmap_compose.
  apply list_fmap_ext. intros _ z _. apply strip_line.
Qed.

Lemma read_existing_ids_lists (file : option string) (zs : list Z) :
  lists file zs → read_existing_ids file = list_to_set (py_str <$> zs).
Proof.
  intros [->|[-> ->]]; [|reflexivity].
  unfold read_existing_ids. rewrite readlines_write_ids, strip_lines_of.
  reflexivity.
Qed.

(** Sorting the elements of a set of integers gives a strictly
    ascending list of exactly these elements. *)
Lemma strictly_sorted_of_NoDup (l : list Z) :
  StronglySorted Z.le l → NoDup l → StronglySorted Z.lt l.
Proof.
  induction 1 as [|x l Hs IH Hall]; intros Hnd; constructor.
  - apply IH. apply NoDup_cons in Hnd. tauto.
  - apply NoDup_cons in Hnd as [Hx _].
    rewrite Forall_forall in *. intros y Hy.
    specialize (Hall y Hy). assert (x ≠ y) by (intros ->; contradiction). lia.
Qed.

Lemma sorted_elements (X : gset Z) :
  StronglySorted Z.lt (merge_sort Z.le (elements X))
  ∧ ∀ z, z ∈ merge_sort Z.le (elements X) ↔ z ∈ X.
Proof.
  pose proof (merge_sort_Permutation Z.le (elements X)) as Hp. split.
  - apply strictly_sorted_of_NoDup.
    + apply StronglySorted_merge_sort; apply _.
    + rewrite Hp. apply NoDup_elements.
  - intros z. rewrite Hp. apply elem_of_elements.
Qed.


(** One addition to a file that lists a strictly ascending [zs]. *)
Lemma add_user_id_to_listed (uid : Z) (file : option string) (zs : list Z) :
  lists file zs →
  StronglySorted Z.lt zs →
  ∃ zs', add_user_id_to_store uid file = Some (write_ids zs')
         ∧ StronglySorted Z.lt zs'
         ∧ uid ∈ zs'
         ∧ (uid ∈ zs → zs' = zs).
Proof.
  intros Hfile Hsorted. unfold add_user_id_to_store.
  rewrite (read_existing_ids_lists file zs Hfile).
  destruct (decide (py_str uid ∈ list_to_set (C:=gset string) (py_str <$> zs)))
    as [Hin|Hnin].
  - apply elem_of_list_to_set, list_elem_of_fmap_inj in Hin; [|apply _].
    exists zs. destruct Hfile as [->|[_ ->]]; [auto|].
    apply elem_of_nil in Hin. contradiction.
  - rewrite py_int_py_str.
    destruct (mapM py_int _) as [nums|] eqn:Hnums.
    + eexists. split; [reflexivity|].
      destruct (sorted_elements (list_to_set nums ∪ {[ uid ]})) as [Hs Hel].
      split; [exact Hs|].
      split; [apply Hel, elem_of_union_r, elem_of_singleton; reflexivity|].
      intros Hin. destruct Hnin.
      apply elem_of_list_to_set, list_elem_of_fmap_2, Hin.
    + apply mapM_None, Exists_exists in Hnums as (x & Hx & Hnone).
      apply list_elem_of_filter in Hx as [_ Hx].
      apply elem_of_elements, elem_of_list_to_set, list_elem_of_fmap in Hx
        as (z & -> & _).
      rewrite py_int_py_str in Hnone. discriminate.
Qed.




(** ** Cleaning up after a relay *)

Ltac not_in_calls H :=
  repeat (apply elem_of_cons in H as [H|H]; [discriminate H|]);
  apply elem_of_nil in H; exact H.

(** The forward step, entered with the downloaded file on the disk:
    whatever the collaborators do, the file is gone afterwards and its
    removal is the last call; no second forward is made; and after a
    forward that succeeded the status message is edited to success,
    then (when that edit and the sleep of ten seconds return) deleted. *)
Lemma forward_step_removes (env : relay_env) (event : new_message)
    (status_msg : bool) (info p : string) (st : relay_state) :
  p ∈ files st →
  ∃ r st' tail,
    forward_step env event status_msg info p st = (r, st')
    ∧ files st' = files st ∖ {[ p ]}
    ∧ rcalls st' = (rcalls st ++
        RSendFile p {| saved_name := basename p; originally_from := info;
                       replied_in_chat := chat_name (chat_title event) |} :: tail)%list
    ∧ last tail = Some (RRemove p)
    ∧ (∀ q c, RSendFile q c ∉ tail)
    ∧ (send_file_r env = Returns tt → status_msg = true →
       ∃ rest, tail = REdit StSaved :: rest
               ∧ (edit_r env StSaved = Returns tt → sleep_r env 10 = Returns tt →
                  rest = [RSleep 10; RDelete; RRemove p])).
Proof.
  intros Hp.
  unfold forward_step, try_finally, try_except, bind, call, edit_status, when,
    delete_status, remove_file, try_except, on_Exception, pure, log_relay, call.
  repeat match goal with
         | _ => progress cbn [files dirs rcalls]
         | |- context [match ?x with _ => _ end] =>
             lazymatch x with
             | context [match _ with _ => _ end] => fail
             | _ => destruct x eqn:?; try congruence
             end
         end;
    try contradiction;
    (eexists _, _, _; split; [reflexivity|]; simpl; split; [reflexivity|];
     split; [rewrite <- ?app_assoc; reflexivity|]; split; [reflexivity|];
     split; [intros q c H; not_in_calls H|];
     intros Hsend Hstatus;
     first [discriminate
           | eexists; split; [reflexivity|];
             intros Hedit Hsleep; first [discriminate | reflexivity]]).
Qed.

(** Case analysis along the control flow of the handler: the innermost
    scrutinee is split until the forward step is reached or the handler
    has ended. *)
Ltac relay_cases :=
  repeat match goal with
         | _ => progress cbn [files dirs rcalls fst snd]
         | |- context [finish (forward_step _ _ _ _ _ _)] => fail 1
         | |- context [match ?x with _ => _ end] =>
             lazymatch x with
             | context [match _ with _ => _ end] => fail
             | _ => destruct x eqn:?; try congruence
             end
         end.

(** C9: whenever the relay handler reaches the forward step (it calls
    [send_file] with the downloaded file), the file is not on the disk
    when the handler ends, whether the forward succeeded, failed or was
    interrupted: its removal is the last thing the handler does.  When
    the forward succeeded and a status message was posted, the handler
    next edits the status to the success text and, that edit and the
    sleep of ten seconds done, deletes the status message. *)
Theorem scratch_file_removed_after_forward
    (env : relay_env) (command_trigger : string) (my_id : Z) (event : new_message)
    (disk folders : gset string) (p : string) (c : caption) :
  RSendFile p c
    ∈ rcalls (snd (handle_outgoing_reply env command_trigger my_id event
                     {| files := disk; dirs := folders; rcalls := [] |})) →
  (p ∉ files (snd (handle_outgoing_reply env command_trigger my_id event
                     {| files := disk; dirs := folders; rcalls := [] |})))
  ∧ (∃ before tail,
      rcalls (snd (handle_outgoing_reply env command_trigger my_id event
                     {| files := disk; dirs := folders; rcalls := [] |}))
      = (before ++ RSendFile p c :: tail)%list
      ∧ last tail = Some (RRemove p)
      ∧ (send_file_r env = Returns tt → reply_r env = Returns tt →
         ∃ rest, tail = REdit StSaved :: rest
                 ∧ (edit_r env StSaved = Returns tt → sleep_r env 10 = Returns tt →
                    rest = [RSleep 10; RDelete; RRemove p]))).
Proof.
  unfold handle_outgoing_reply, handle_outgoing_reply_body.
  unfold bind, try_except, call, edit_status, when, delete_status, ensure_dir,
    download_media, path_exists, on_Exception, pure, return_, raise, log_relay,
    try_except, call.
  relay_cases.
  all: try (unfold finish; cbn [fst snd rcalls files]; intros H; exfalso; not_in_calls H).
  all: match goal with
       | H : _ && bool_decide (?q ∈ ?F) = true
         |- context [forward_step ?e ?ev ?b ?i ?q ?st] =>
           apply andb_true_iff in H as [_ H]; apply bool_decide_eq_true in H;
           destruct (forward_step_removes e ev b i q st H)
             as (r & st' & tail & Heq & Hfiles & Hcalls & Hlast & Hno & Hok);
           rewrite Heq; unfold finish; destruct r; cbn [fst snd];
           rewrite Hcalls, Hfiles; cbn [rcalls files]; intros Hin;
           (apply elem_of_app in Hin as [Hin|Hin]; [exfalso; not_in_calls Hin|]);
           (apply elem_of_cons in Hin as [Hin|Hin]; [|destruct (Hno _ _ Hin)]);
           injection Hin as -> ->;
           (split; [apply not_elem_of_difference; right;
                   apply elem_of_singleton; reflexivity|]);
           eexists _, tail; (split; [reflexivity|]); (split; [exact Hlast|]);
           intros Hsend Hreply; first [discriminate Hreply | apply Hok; auto]
       end.
Qed.

Lemma scratch_file_removed_in_relay :
  (scratch_file
     ∉ files (snd (handle_outgoing_reply relay_ok ".d" 77700011 trigger_event
                     empty_disk)))
  ∧ (∃ before tail,
      rcalls (snd (handle_outgoing_reply relay_ok ".d" 77700011 trigger_event
                     empty_disk))
      = (before
         ++ RSendFile scratch_file
              {| saved_name := "photo.jpg";
                 originally_from := "Ada (ID: 5550001)";
                 replied_in_chat := "Holidays" |} :: tail)%list
      ∧ last tail = Some (RRemove scratch_file)
      ∧ (send_file_r relay_ok = Returns tt → reply_r relay_ok = Returns tt →
         ∃ rest, tail = REdit StSaved :: rest
                 ∧ (edit_r relay_ok StSaved = Returns tt →
                    sleep_r relay_ok 10 = Returns tt →
                    rest = [RSleep 10; RDelete; RRemove scratch_file]))).
Proof.
  apply (scratch_file_removed_after_forward relay_ok ".d" 77700011 trigger_event
           ∅ ∅ scratch_file
           {| saved_name := "photo.jpg"; originally_from := "Ada (ID: 5550001)";
              replied_in_chat := "Holidays" |}).
  vm_compute. do 5 right. left.
Defined.

(** The two relays run: the forward succeeds, or it fails; the disk is
    empty again either way. *)
Example relay_with_successful_forward :
  handle_outgoing_reply relay_ok ".d" 77700011 trigger_event empty_disk
  = (Returns tt,
     {| files := ∅; dirs := {[ "user_downloads/77700011" ]};
        rcalls := [RReply StProcessing; RGetMessages 9 5; RGetSender;
                   RMakedirs "user_downloads/77700011";
                   RDownloadMedia "user_downloads/77700011";
                   RSendFile scratch_file
                     {| saved_name := "photo.jpg";
                        originally_from := "Ada (ID: 5550001)";
                        replied_in_chat := "Holidays" |};
                   REdit StSaved; RSleep 10; RDelete; RRemove scratch_file] |}).
Proof. vm_compute. reflexivity. Qed.

Example relay_with_failed_forward :
  handle_outgoing_reply forward_fails ".d" 77700011 trigger_event empty_disk
  = (Returns tt,
     {| files := ∅; dirs := {[ "user_downloads/77700011" ]};
        rcalls := [RReply StProcessing; RGetMessages 9 5; RGetSender;
                   RMakedirs "user_downloads/77700011";
                   RDownloadMedia "user_downloads/77700011";
                   RSendFile scratch_file
                     {| saved_name := "photo.jpg";
                        originally_from := "Unknown User";
                        replied_in_chat := "Holidays" |};
                   REdit (StSendFailed OtherError); RRemove scratch_file] |}).
Proof. vm_compute. reflexivity. Qed.

(* ================================================================== *)
(** * Further properties of the code *)

(** ** The user-id list on any file *)

Lemma mapM_elem_of {A B} (f : A → option B) (l : list A) (k : list B) :
  mapM f l = Some k → ∀ y, y ∈ k ↔ ∃ x, x ∈ l ∧ f x = Some y.
Proof.
  intros H%mapM_Some. induction H as [|x y l k Hxy _ IH]; intros z.
  - split; [intros Hz%elem_of_nil; contradiction|].
    intros (x & Hx%elem_of_nil & _). contradiction.
  - rewrite elem_of_cons, IH. split.
    + intros [-> |(x' & Hx' & Hf)]; [exists x|exists x']; split; auto; [left|right; auto].
    + intros (x' & [-> |Hx']%elem_of_cons & Hf); [left; congruence|right; eauto].
Qed.

(** The three ways [add_user_id_to_store] can go. *)
Lemma add_user_id_cases (uid : Z) (file : option string) :
  (py_str uid ∈ read_existing_ids file ∧ add_user_id_to_store uid file = file)
  ∨ ((py_str uid ∉ read_existing_ids file)
     ∧ mapM py_int (filter (fun id_str => isdigit id_str = true)
                           (elements (read_existing_ids file))) = None
     ∧ add_user_id_to_store uid file = file)
  ∨ ((py_str uid ∉ read_existing_ids file)
     ∧ ∃ nums,
         mapM py_int (filter (fun id_str => isdigit id_str = true)
                             (elements (read_existing_ids file))) = Some nums
         ∧ add_user_id_to_store uid file
           = Some (write_ids (merge_sort Z.le
                                (elements (list_to_set (C:=gset Z) nums ∪ {[ uid ]}))))).
Proof.
  unfold add_user_id_to_store.
  destruct (decide (py_str uid ∈ read_existing_ids file)) as [Hin|Hnin]; [auto|].
  right. rewrite py_int_py_str.
  destruct (mapM py_int _) as [nums|]; [right|left]; eauto.
Qed.

(** X1: adding an id twice is the same as adding it once, whatever the
    file holds: a file written by other means, with lines that are no
    numbers, included. *)
Theorem add_user_id_twice_on_any_file (uid : Z) (file : option string) :
  add_user_id_to_store uid (add_user_id_to_store uid file)
  = add_user_id_to_store uid file.
Proof.
  destruct (add_user_id_cases uid file)
    as [[_ H]|[(_ & _ & H)|(_ & nums & _ & H)]]; rewrite H; try exact H.
  destruct (sorted_elements (list_to_set nums ∪ {[ uid ]})) as [Hs Hel].
  destruct (add_user_id_to_listed uid (Some (write_ids (merge_sort Z.le
              (elements (list_to_set (C:=gset Z) nums ∪ {[ uid ]}))))) _
              (or_introl eq_refl) Hs) as (zs' & -> & _ & _ & Hsame).
  rewrite Hsame; [reflexivity|].
  apply Hel, elem_of_union_r, elem_of_singleton. reflexivity.
Qed.


(** X3: a line that passes [str.isdigit] and that [int] cannot read
    (a superscript digit) makes [int] raise inside the set
    comprehension; the handler for [Exception] swallows the error, so no
    id can be added any more and the file stays as it is. *)
Theorem unparsable_digit_line_blocks_additions
    (uid : Z) (file : option string) (line : string) :
  line ∈ read_existing_ids file →
  isdigit line = true →
  py_int line = None →
  add_user_id_to_store uid file = file.
Proof.
  intros Hline Hd Hnone.
  destruct (add_user_id_cases uid file)
    as [[_ H]|[(_ & _ & H)|(_ & nums & Hnums & _)]]; [exact H|exact H|].
  exfalso. apply mapM_Some in Hnums.
  assert (line ∈ filter (fun id_str => isdigit id_str = true)
                        (elements (read_existing_ids file))) as Hin.
  { apply list_elem_of_filter. split; [exact Hd|apply elem_of_elements, Hline]. }
  revert Hin. induction Hnums as [|x y l k Hxy _ IH].
  - intros H%elem_of_nil. exact H.
  - intros [-> |H]%elem_of_cons; [congruence|auto].
Qed.

Lemma superscript_line_blocks_additions :
  add_user_id_to_store 7 (Some (String "178" (String LF "5" ++ String LF "")))
  = Some (String "178" (String LF "5" ++ String LF "")).
Proof.
  apply (unparsable_digit_line_blocks_additions 7
           (Some (String "178" (String LF "5" ++ String LF ""))) (String "178" "")).
  - unfold read_existing_ids. apply elem_of_list_to_set. vm_compute. left.
  - reflexivity.
  - reflexivity.
Defined.

Lemma digit_lines_of_listed (zs : list Z) (z : Z) :
  (∃ line, line ∈ list_to_set (C:=gset string) (py_str <$> zs)
           ∧ isdigit line = true ∧ py_int line = Some z)
  ↔ z ∈ zs ∧ 0 ≤ z.
Proof.
  split.
  - intros (line & Hl & Hd & Hp).
    apply elem_of_list_to_set, list_elem_of_fmap in Hl as (z' & -> & Hz').
    rewrite py_int_py_str in Hp. injection Hp as <-.
    split; [exact Hz'|apply isdigit_py_str, Hd].
  - intros [Hz Hpos]. exists (py_str z). split.
    + apply elem_of_list_to_set, list_elem_of_fmap_2, Hz.
    + split; [apply isdigit_py_str, Hpos|apply py_int_py_str].
Qed.

Lemma strictly_sorted_unique (l k : list Z) :
  StronglySorted Z.lt l → StronglySorted Z.lt k →
  (∀ z, z ∈ l ↔ z ∈ k) → l = k.
Proof.
  intros Hl. revert k. induction Hl as [|x l Hl IH Hx]; intros k Hk Heq.
  - destruct k as [|y k]; [reflexivity|].
    assert (y ∈ []) as H%elem_of_nil by (apply Heq; left). contradiction.
  - destruct Hk as [|y k Hk Hy].
    + assert (x ∈ []) as H%elem_of_nil by (apply Heq; left). contradiction.
    + rewrite Forall_forall in Hx, Hy.
      assert (x = y) as ->.
      { assert (x ∈ y :: k) as [->|Hxk]%elem_of_cons by (apply Heq; left);
          [reflexivity|].
        assert (y ∈ x :: l) as [->|Hyl]%elem_of_cons by (apply Heq; left);
          [reflexivity|].
        specialize (Hx _ Hyl). specialize (Hy _ Hxk). lia. }
      f_equal. apply IH; [exact Hk|]. intros z. split; intros Hz.
      * assert (z ∈ y :: k) as [->|H]%elem_of_cons by (apply Heq; right; exact Hz);
          [|exact H].
        specialize (Hx _ Hz). lia.
      * assert (z ∈ y :: l) as [->|H]%elem_of_cons by (apply Heq; right; exact Hz);
          [|exact H].
        specialize (Hy _ Hz). lia.
Qed.

(** One addition of an id that a listed file does not hold. *)
Lemma add_new_user_id_to_listed (n : Z) (file : option string) (zs : list Z) :
  lists file zs → n ∉ zs →
  add_user_id_to_store n file
  = Some (write_ids (merge_sort Z.le
                       (elements (list_to_set (C:=gset Z) (filter (Z.le 0) zs)
                                  ∪ {[ n ]})))).
Proof.
  intros Hfile Hn.
  pose proof (read_existing_ids_lists file zs Hfile) as HE.
  destruct (add_user_id_cases n file)
    as [[Hin H]|[(Hnin & Hnone & H)|(Hnin & nums & Hnums & H)]]; rewrite H.
  - rewrite HE in Hin.
    apply elem_of_list_to_set, list_elem_of_fmap_inj in Hin; [|apply _].
    contradiction.
  - exfalso. apply mapM_None, Exists_exists in Hnone as (x & Hx & Hx').
    apply list_elem_of_filter in Hx as [_ Hx]. apply elem_of_elements in Hx.
    rewrite HE in Hx.
    apply elem_of_list_to_set, list_elem_of_fmap in Hx as (z & -> & _).
    rewrite py_int_py_str in Hx'. discriminate.
  - assert (list_to_set nums =@{gset Z} list_to_set (filter (Z.le 0) zs)) as ->;
      [|reflexivity].
    apply set_eq. intros z.
    rewrite !elem_of_list_to_set, (mapM_elem_of _ _ _ Hnums), list_elem_of_filter.
    split.
    + intros (x & Hx & Hf). apply list_elem_of_filter in Hx as [Hd Hx].
      apply elem_of_elements in Hx. rewrite HE in Hx.
      apply and_comm, (digit_lines_of_listed zs z). eauto.
    + intros [Hpos Hz].
      destruct (proj2 (digit_lines_of_listed zs z) (conj Hz Hpos))
        as (line & Hl & Hd & Hp).
      exists line. split; [|exact Hp].
      apply list_elem_of_filter. split; [exact Hd|].
      apply elem_of_elements. rewrite HE. exact Hl.
Qed.

Lemma filter_nonneg_all (zs : list Z) :
  Forall (Z.le 0) zs → filter (Z.le 0) zs = zs.
Proof.
  induction 1 as [|z zs Hz _ IH]; [reflexivity|].
  rewrite filter_cons_True by exact Hz. rewrite IH. reflexivity.
Qed.

(** One addition to a file that lists non-negative integers in
    ascending order. *)
Lemma add_user_id_to_nonneg_listed (n : Z) (file : option string) (zs : list Z) :
  lists file zs → StronglySorted Z.lt zs → Forall (Z.le 0) zs →
  add_user_id_to_store n file
  = Some (write_ids (merge_sort Z.le
                       (elements (list_to_set (C:=gset Z) zs ∪ {[ n ]})))).
Proof.
  intros Hfile Hs Hpos.
  destruct (decide (n ∈ zs)) as [Hin|Hnin].
  - destruct (add_user_id_to_listed n file zs Hfile Hs) as (zs' & -> & _ & _ & Hsame).
    rewrite (Hsame Hin).
    destruct (sorted_elements (list_to_set zs ∪ {[ n ]})) as [Hs' Hel'].
    f_equal. f_equal. apply strictly_sorted_unique; [exact Hs|exact Hs'|].
    intros z. rewrite Hel', elem_of_union, elem_of_singleton, elem_of_list_to_set.
    split; [auto|]. intros [H'| ->]; assumption.
  - rewrite (add_new_user_id_to_listed n file zs Hfile Hnin).
    rewrite (filter_nonneg_all zs Hpos). reflexivity.
Qed.

(** X4: starting without a file, after any non-empty run of additions
    of non-negative ids the file holds exactly these ids, once each, in
    ascending order, one on a line. *)
Theorem store_after_nonneg_ids (ids : list Z) :
  ids ≠ [] → Forall (Z.le 0) ids →
  store_after ids
  = Some (write_ids (merge_sort Z.le (elements (list_to_set (C:=gset Z) ids)))).
Proof.
  unfold store_after. induction ids as [|n ids IH] using rev_ind; [congruence|].
  intros _ [Hids Hn]%Forall_app. rewrite fold_left_app. simpl.
  set (zs := merge_sort Z.le (elements (list_to_set (C:=gset Z) ids))).
  destruct (sorted_elements (list_to_set ids)) as [Hs Hel]. fold zs in Hs, Hel.
  assert (lists (fold_left (fun file n => add_user_id_to_store n file) ids None) zs)
    as Hlists.
  { destruct ids as [|i ids]; [right; split; reflexivity|].
    left. apply IH; [discriminate|exact Hids]. }
  rewrite (add_user_id_to_nonneg_listed n _ zs Hlists Hs).
  - assert (list_to_set zs ∪ {[ n ]} =@{gset Z} list_to_set (ids ++ [n])) as ->;
      [|reflexivity].
    apply set_eq. intros z.
    rewrite list_to_set_app_L, !elem_of_union, !elem_of_list_to_set, Hel,
      elem_of_list_to_set, elem_of_cons, elem_of_nil, elem_of_singleton. tauto.
  - apply Forall_forall. intros z Hz%Hel%elem_of_list_to_set.
    rewrite Forall_forall in Hids. auto.
Qed.

Lemma store_after_three_logins :
  store_after [30; 7; 30]
  = Some (write_ids (merge_sort Z.le (elements (list_to_set (C:=gset Z) [30; 7; 30])))).
Proof.
  apply (store_after_nonneg_ids [30; 7; 30]).
  - discriminate.
  - repeat constructor; lia.
Defined.

(** X5: the rewrite keeps the lines that pass [isdigit] only, and the
    minus sign does not: adding an id that a file of integers does not
    hold drops every negative integer of the file. *)
Theorem new_id_drops_negative_lines (n : Z) (zs : list Z) :
  n ∉ zs →
  ∃ zs', add_user_id_to_store n (Some (write_ids zs)) = Some (write_ids zs')
         ∧ StronglySorted Z.lt zs'
         ∧ ∀ z, z ∈ zs' ↔ z = n ∨ (z ∈ zs ∧ 0 ≤ z).
Proof.
  intros Hn. eexists. split.
  - apply (add_new_user_id_to_listed n _ zs (or_introl eq_refl) Hn).
  - destruct (sorted_elements (list_to_set (filter (Z.le 0) zs) ∪ {[ n ]}))
      as [Hs Hel].
    split; [exact Hs|]. intros z.
    rewrite Hel, elem_of_union, elem_of_singleton, elem_of_list_to_set,
      list_elem_of_filter. tauto.
Qed.

Lemma group_id_is_dropped :
  ∃ zs', add_user_id_to_store 4 (Some (write_ids [-5; 3])) = Some (write_ids zs')
         ∧ StronglySorted Z.lt zs'
         ∧ ∀ z, z ∈ zs' ↔ z = 4 ∨ (z ∈ [-5; 3] ∧ 0 ≤ z).
Proof.
  apply (new_id_drops_negative_lines 4 [-5; 3]).
  intros H. repeat (apply elem_of_cons in H as [H|H]; [discriminate H|]).
    apply elem_of_nil in H. exact H.
Defined.

(** X6: a non-negative id that was added stays in the list whatever
    is added later. *)
Theorem nonneg_id_stays_listed (ids : list Z) (uid : Z) :
  0 ≤ uid → uid ∈ ids →
  ∃ zs, store_after ids = Some (write_ids zs)
        ∧ StronglySorted Z.lt zs ∧ uid ∈ zs.
Proof.
  intros Hpos Hin.
  assert (∃ zs, lists (store_after ids) zs ∧ StronglySorted Z.lt zs
                ∧ ∀ z, 0 ≤ z → z ∈ ids → z ∈ zs) as (zs & Hl & Hs & Hkeep).
  { clear. unfold store_after. induction ids as [|n ids IH] using rev_ind.
    - exists []. split; [right; auto|]. split; [constructor|].
      intros z _ H%elem_of_nil. contradiction.
    - destruct IH as (zs & Hl & Hs & Hkeep). rewrite fold_left_app. simpl.
      destruct (decide (n ∈ zs)) as [Hn|Hn].
      + destruct (add_user_id_to_listed n _ zs Hl Hs) as (zs' & -> & _ & _ & Hsame).
        rewrite (Hsame Hn). exists zs. split; [left; reflexivity|].
        split; [exact Hs|]. intros z Hz [H| ->%list_elem_of_singleton]%elem_of_app;
          auto.
      + rewrite (add_new_user_id_to_listed n _ zs Hl Hn).
        destruct (sorted_elements (list_to_set (filter (Z.le 0) zs) ∪ {[ n ]}))
          as [Hs' Hel].
        eexists. split; [left; reflexivity|]. split; [exact Hs'|].
        intros z Hz H. rewrite Hel, elem_of_union, elem_of_singleton,
          elem_of_list_to_set, list_elem_of_filter.
        apply elem_of_app in H as [H| ->%list_elem_of_singleton]; auto. }
  exists zs. destruct Hl as [->|[_ ->]].
  - auto.
  - apply Hkeep in Hin; [|exact Hpos]. apply elem_of_nil in Hin. contradiction.
Qed.

Lemma first_account_stays_listed :
  ∃ zs, store_after [77700011; -5; 12; 77700011; 3] = Some (write_ids zs)
        ∧ StronglySorted Z.lt zs ∧ 77700011 ∈ zs.
Proof.
  apply (nonneg_id_stays_listed [77700011; -5; 12; 77700011; 3] 77700011).
  - lia.
  - left.
Defined.

(** ** The session task on every path *)

Ltac unfold_session :=
  unfold run_user_instance, run_user_instance_body, login_with_code,
    not_authorized_or_no_me, disconnect_if_connected, is_connected, disconnect,
    connect, finish, bind, try_except, call, when, on_Exception, pure, return_,
    raise, log_call, new_client, is_Exception.


(** X8: [run_user_instance] returns an identity exactly when the watch
    phase was started ([run_until_disconnected] scheduled), and then the
    client is still connected. *)
Theorem identity_returned_iff_watching
    (env : client_env) (phone : string)
    (code_cb password_cb : outcome (option string)) :
  (watching (snd (run_user_instance env phone code_cb password_cb)) = true
   ↔ ∃ id, fst (run_user_instance env phone code_cb password_cb) = Returns (Some id))
  ∧ (watching (snd (run_user_instance env phone code_cb password_cb)) = true →
     connected (snd (run_user_instance env phone code_cb password_cb)) = true).
Proof.
  unfold_session. session_cases.
  all: split; [split|]; intros H;
    first [ vm_compute in H; discriminate H
          | match goal with
            | Hid : ∃ _, _ |- _ => destruct Hid as [? Hid]; discriminate Hid
            end
          | solve [vm_compute; reflexivity]
          | match goal with
            | |- ∃ _, Returns ?m = _ =>
                destruct m as [id|]; [exists id; reflexivity|];
                match goal with
                | Hb : _ || _ = false |- _ =>
                    apply orb_false_iff in Hb as [_ Hb]; vm_compute in Hb;
                    discriminate Hb
                end
            end
          | vm_compute;
            match goal with
            | |- ?a = true => destruct a; simpl in *; congruence
            end ].
Qed.

(** X9: the session is written to its file only after the second
    [is_user_authorized] has answered yes. *)
Theorem session_saved_only_when_authorized
    (env : client_env) (phone : string)
    (code_cb password_cb : outcome (option string)) :
  CSaveSession ∈ calls (snd (run_user_instance env phone code_cb password_cb)) →
  recheck_authorized_r env = Returns true.
Proof.
  unfold_session. session_cases.
  all: intros H; simpl in H;
    first [ exfalso; repeat (apply elem_of_cons in H as [H|H]; [discriminate H|]);
            apply elem_of_nil in H; exact H
          | match goal with
            | Hb : negb ?a || _ = false |- Returns ?a = _ =>
                apply orb_false_iff in Hb as [Hb _]; destruct a;
                [reflexivity|discriminate Hb]
            end ].
Qed.

(** X10: for an account whose stored session is still authorized the
    phone number and the two callbacks are not used: the run is the same
    whatever they are, and no code is requested and no sign-in is
    attempted. *)
Theorem authorized_session_skips_the_handshake
    (env : client_env) (phone phone' : string)
    (code_cb password_cb code_cb' password_cb' : outcome (option string)) :
  is_user_authorized_r env = Returns true →
  run_user_instance env phone code_cb password_cb
  = run_user_instance env phone' code_cb' password_cb'
  ∧ ∀ c, c ∈ calls (snd (run_user_instance env phone code_cb password_cb)) →
         (∀ p, c ≠ CSendCodeRequest p) ∧ (∀ p code, c ≠ CSignInCode p code)
         ∧ (∀ pw, c ≠ CSignInPassword pw).
Proof.
  intros Ha. unfold_session. rewrite Ha. split; [reflexivity|].
  session_cases.
  all: intros c H; simpl in H;
    repeat (apply elem_of_cons in H as [-> |H]; [repeat split; discriminate|]);
    apply elem_of_nil in H; contradiction.
Qed.

Lemma restart_reuses_stored_authorization :
  run_user_instance stored_login "+12345678900" (Raises KeyError) (Raises KeyError)
  = run_user_instance stored_login "" (Returns None) (Returns None)
  ∧ ∀ c, c ∈ calls (snd (run_user_instance stored_login "+12345678900"
                           (Raises KeyError) (Raises KeyError))) →
         (∀ p, c ≠ CSendCodeRequest p) ∧ (∀ p code, c ≠ CSignInCode p code)
         ∧ (∀ pw, c ≠ CSignInPassword pw).
Proof.
  exact (authorized_session_skips_the_handshake stored_login "+12345678900" ""
           (Raises KeyError) (Raises KeyError) (Returns None) (Returns None) eq_refl).
Defined.

(** X11: when the account asks for its second factor and the password
    rendezvous is left unfulfilled for more than 300 seconds, the session
    task disconnects and returns no identity, and no password is sent
    to Telegram. *)
Theorem missing_password_ends_the_session
    (env : client_env) (phone code : string) (password_fate : fate) :
  connect_r env = Returns true →
  is_user_authorized_r env = Returns false →
  send_code_request_r env = Returns tt →
  sign_in_code_r env code = Raises SessionPasswordNeededError →
  left_unfulfilled 300 password_fate →
  run_user_instance env phone (Returns (Some code))
    (get_password_from_bot_callback (Some password_fate))
  = (Returns None,
     {| connected := false;
        calls := [CConnect; CIsUserAuthorized; CSendCodeRequest phone;
                  CSignInCode phone code; CDisconnect] |}).
Proof.
  intros Hc Ha Hs Hsign Hfate.
  unfold get_password_from_bot_callback.
  rewrite (callback_of_unfulfilled_future _ Hfate).
  unfold_session. rewrite Hc, Ha, Hs. simpl. rewrite Hsign. reflexivity.
Qed.

Lemma second_factor_never_sent :
  run_user_instance first_login_2fa "+12345678900" (Returns (Some "54321"))
    (get_password_from_bot_callback (Some Unfulfilled))
  = (Returns None,
     {| connected := false;
        calls := [CConnect; CIsUserAuthorized; CSendCodeRequest "+12345678900";
                  CSignInCode "+12345678900" "54321"; CDisconnect] |}).
Proof.
  exact (missing_password_ends_the_session first_login_2fa "+12345678900" "54321"
           Unfulfilled eq_refl eq_refl eq_refl eq_refl I).
Defined.

(** X12: what becomes of an error of the sign-in with the code (other
    than the request for the second factor): a wrong code and a wrong
    phone number are re-raised, [CancelledError] passes through, every
    other error gives the result [None]; the client is disconnected in
    all cases but the cancellation, and nothing else is called. *)
Theorem failed_code_sign_in
    (env : client_env) (phone code : string)
    (password_cb : outcome (option string)) (e : exn) :
  connect_r env = Returns true →
  is_user_authorized_r env = Returns false →
  send_code_request_r env = Returns tt →
  sign_in_code_r env code = Raises e →
  e ≠ SessionPasswordNeededError →
  fst (run_user_instance env phone (Returns (Some code)) password_cb)
  = match e with
    | PhoneCodeInvalidError | PhoneNumberInvalidError | CancelledError => Raises e
    | _ => Returns None
    end
  ∧ calls (snd (run_user_instance env phone (Returns (Some code)) password_cb))
    = ([CConnect; CIsUserAuthorized; CSendCodeRequest phone; CSignInCode phone code]
       ++ (if is_Exception e then [CDisconnect] else []))%list.
Proof.
  intros Hc Ha Hs Hsign Hne.
  unfold_session. rewrite Hc, Ha, Hs. simpl. rewrite Hsign.
  destruct e; try contradiction; split; reflexivity.
Qed.

Lemma wrong_code_is_reported_to_the_caller :
  fst (run_user_instance wrong_code "+12345678900" (Returns (Some "00000"))
         (Returns None))
  = Raises PhoneCodeInvalidError
  ∧ calls (snd (run_user_instance wrong_code "+12345678900" (Returns (Some "00000"))
                  (Returns None)))
    = [CConnect; CIsUserAuthorized; CSendCodeRequest "+12345678900";
       CSignInCode "+12345678900" "00000"; CDisconnect].
Proof.
  apply (failed_code_sign_in wrong_code "+12345678900" "00000" (Returns None)
           PhoneCodeInvalidError eq_refl eq_refl eq_refl eq_refl).
  discriminate.
Defined.

(** X13: the same for the sign-in with the password: a wrong password
    is re-raised, [CancelledError] passes through, every other error
    gives the result [None]; the client is disconnected in all cases
    but the cancellation. *)
Theorem failed_password_sign_in
    (env : client_env) (phone code password : string) (e : exn) :
  connect_r env = Returns true →
  is_user_authorized_r env = Returns false →
  send_code_request_r env = Returns tt →
  sign_in_code_r env code = Raises SessionPasswordNeededError →
  sign_in_password_r env password = Raises e →
  fst (run_user_instance env phone (Returns (Some code)) (Returns (Some password)))
  = match e with
    | PasswordHashInvalidError | CancelledError => Raises e
    | _ => Returns None
    end
  ∧ calls (snd (run_user_instance env phone (Returns (Some code))
                  (Returns (Some password))))
    = ([CConnect; CIsUserAuthorized; CSendCodeRequest phone; CSignInCode phone code;
        CSignInPassword password]
       ++ (if is_Exception e then [CDisconnect] else []))%list.
Proof.
  intros Hc Ha Hs Hsign Hpw.
  unfold_session. rewrite Hc, Ha, Hs. simpl. rewrite Hsign. simpl. rewrite Hpw.
  destruct e; split; reflexivity.
Qed.

Lemma wrong_password_is_reported_to_the_caller :
  fst (run_user_instance wrong_password "+12345678900" (Returns (Some "54321"))
         (Returns (Some "hunter2")))
  = Raises PasswordHashInvalidError
  ∧ calls (snd (run_user_instance wrong_password "+12345678900"
                  (Returns (Some "54321")) (Returns (Some "hunter2"))))
    = [CConnect; CIsUserAuthorized; CSendCodeRequest "+12345678900";
       CSignInCode "+12345678900" "54321"; CSignInPassword "hunter2"; CDisconnect].
Proof.
  exact (failed_password_sign_in wrong_password "+12345678900" "54321" "hunter2"
           PasswordHashInvalidError eq_refl eq_refl eq_refl eq_refl eq_refl).
Defined.


Lemma saved_session_was_authorized :
  CSaveSession ∈ calls (snd (run_user_instance first_login "+12345678900"
                               (Returns (Some "54321")) (Returns None)))
  ∧ recheck_authorized_r first_login = Returns true.
Proof.
  assert (CSaveSession ∈ calls (snd (run_user_instance first_login "+12345678900"
                                       (Returns (Some "54321")) (Returns None))))
    as H by (vm_compute; do 5 right; left).
  split; [exact H|].
  exact (session_saved_only_when_authorized first_login "+12345678900"
           (Returns (Some "54321")) (Returns None) H).
Defined.

(** X14: the client is left connected when [run_user_instance] ends
    in exactly two cases: the watch phase has started, or the task was
    cancelled after the connection was made. *)
Theorem connection_left_open_iff
    (env : client_env) (phone : string)
    (code_cb password_cb : outcome (option string)) :
  connected (snd (run_user_instance env phone code_cb password_cb)) = true
  ↔ watching (snd (run_user_instance env phone code_cb password_cb)) = true
    ∨ (fst (run_user_instance env phone code_cb password_cb) = Raises CancelledError
       ∧ connect_r env = Returns true).
Proof.
  unfold_session. session_cases.
  all: unfold watching, id; cbn [connected calls fst snd].
  all: repeat match goal with
              | a : bool |- _ => destruct a; try discriminate
              | e : exn |- _ => destruct e; try discriminate
              end.
  all: cbn [connected calls fst snd app negb orb] in *; try discriminate.
  all: split; [intros H | intros [H|[H H']]]; try discriminate; try congruence.
  all: try (left; vm_compute; reflexivity).
  all: try (right; split; congruence).
  all: try (vm_compute in H; discriminate H).

Qed.

(** ** The relay handler on every path *)

Ltac unfold_relay :=
  unfold handle_outgoing_reply, handle_outgoing_reply_body;
  unfold bind, try_except, call, edit_status, when, delete_status, ensure_dir,
    download_media, path_exists, on_Exception, pure, return_, raise, log_relay,
    try_except, call.

(** X15: the relay handler acts on a message exactly when it is a
    reply whose text is the trigger and whose sender is the account
    itself: then its first call is the status reply; for every other
    message it returns at once and calls nothing. *)
Theorem handler_acts_only_on_own_trigger
    (env : relay_env) (command_trigger : string) (my_id : Z) (event : new_message)
    (st : relay_state) :
  (is_reply event = true ∧ raw_text event = command_trigger
   ∧ sender_id event = my_id →
   ∃ rest, rcalls (snd (handle_outgoing_reply env command_trigger my_id event st))
           = (rcalls st ++ RReply StProcessing :: rest)%list)
  ∧ (¬ (is_reply event = true ∧ raw_text event = command_trigger
        ∧ sender_id event = my_id) →
     handle_outgoing_reply env command_trigger my_id event st = (Returns tt, st)).
Proof.
  split.
  - intros (Hr & Ht & Hs). unfold_relay.
    rewrite Hr, (bool_decide_eq_true_2 _ Ht), (bool_decide_eq_true_2 _ Hs).
    cbn [andb negb]. relay_cases.
    all: try (unfold finish; cbn [fst snd rcalls]; rewrite <- ?app_assoc;
              eexists; reflexivity).
    all: match goal with
         | H : _ && bool_decide (?q ∈ _) = true
           |- context [forward_step ?e ?ev ?b ?i ?q ?s1] =>
             apply andb_true_iff in H as [_ H]; apply bool_decide_eq_true in H;
             destruct (forward_step_removes e ev b i q s1 H)
               as (r & st' & tail & Heq & _ & Hcalls & _);
             rewrite Heq; unfold finish; destruct r; cbn [fst snd];
             rewrite Hcalls; cbn [rcalls]; rewrite <- ?app_assoc;
             eexists; reflexivity
         end.
  - intros H. unfold handle_outgoing_reply, handle_outgoing_reply_body.
    destruct (is_reply event); [|reflexivity]. cbn [andb].
    destruct (decide (raw_text event = command_trigger)) as [Ht|Ht].
    + rewrite (bool_decide_eq_true_2 _ Ht).
      destruct (decide (sender_id event = my_id)) as [Hs|Hs]; [tauto|].
      rewrite (bool_decide_eq_false_2 _ Hs). reflexivity.
    + rewrite (bool_decide_eq_false_2 _ Ht). reflexivity.
Qed.

Lemma incoming_reply_of_someone_else_is_ignored :
  ¬ (is_reply {| is_reply := true; raw_text := ".d"; sender_id := 5550001;
                 reply_to_msg_id := 5; chat_id := 9; chat_title := None |} = true
     ∧ raw_text {| is_reply := true; raw_text := ".d"; sender_id := 5550001;
                   reply_to_msg_id := 5; chat_id := 9; chat_title := None |} = ".d"
     ∧ sender_id {| is_reply := true; raw_text := ".d"; sender_id := 5550001;
                    reply_to_msg_id := 5; chat_id := 9; chat_title := None |}
       = 77700011)
  ∧ handle_outgoing_reply relay_ok ".d" 77700011
      {| is_reply := true; raw_text := ".d"; sender_id := 5550001;
         reply_to_msg_id := 5; chat_id := 9; chat_title := None |} empty_disk
    = (Returns tt, empty_disk).
Proof.
  assert (¬ (is_reply {| is_reply := true; raw_text := ".d"; sender_id := 5550001;
                         reply_to_msg_id := 5; chat_id := 9; chat_title := None |}
             = true
             ∧ raw_text {| is_reply := true; raw_text := ".d"; sender_id := 5550001;
                           reply_to_msg_id := 5; chat_id := 9; chat_title := None |}
               = ".d"
             ∧ sender_id {| is_reply := true; raw_text := ".d";
                            sender_id := 5550001; reply_to_msg_id := 5;
                            chat_id := 9; chat_title := None |} = 77700011)) as H
    by (intros (_ & _ & H); discriminate H).
  split; [exact H|].
  exact (proj2 (handler_acts_only_on_own_trigger relay_ok ".d" 77700011
                  {| is_reply := true; raw_text := ".d"; sender_id := 5550001;
                     reply_to_msg_id := 5; chat_id := 9; chat_title := None |}
                  empty_disk) H).
Defined.

(** X16: when the message replied to carries no media, nothing is
    downloaded, forwarded or written: the disk is unchanged and the only
    calls are the status reply, the fetch of the message, the edit of
    the status, the sleep of five seconds and the deletion of the
    status; all five are made when the status calls succeed. *)
Theorem reply_without_media_downloads_nothing
    (env : relay_env) (command_trigger : string) (my_id : Z) (event : new_message)
    (disk folders : gset string) (m : message) :
  get_messages_r env = Returns (Some m) →
  has_media m = false →
  files (snd (handle_outgoing_reply env command_trigger my_id event
                {| files := disk; dirs := folders; rcalls := [] |})) = disk
  ∧ dirs (snd (handle_outgoing_reply env command_trigger my_id event
                 {| files := disk; dirs := folders; rcalls := [] |})) = folders
  ∧ (∀ c, c ∈ rcalls (snd (handle_outgoing_reply env command_trigger my_id event
                             {| files := disk; dirs := folders; rcalls := [] |})) →
          c = RReply StProcessing
          ∨ c = RGetMessages (chat_id event) (reply_to_msg_id event)
          ∨ c = REdit StNoMedia ∨ c = RSleep 5 ∨ c = RDelete)
  ∧ (is_reply event = true → raw_text event = command_trigger →
     sender_id event = my_id → reply_r env = Returns tt →
     edit_r env StNoMedia = Returns tt → sleep_r env 5 = Returns tt →
     rcalls (snd (handle_outgoing_reply env command_trigger my_id event
                    {| files := disk; dirs := folders; rcalls := [] |}))
     = [RReply StProcessing; RGetMessages (chat_id event) (reply_to_msg_id event);
        REdit StNoMedia; RSleep 5; RDelete]).
Proof.
  intros Hm Hmedia. unfold_relay. rewrite Hm, Hmedia.
  relay_cases.
  all: unfold finish; cbn [fst snd files dirs rcalls app]; split_and!;
    try reflexivity.
  all: try (intros c Hc; repeat (apply elem_of_cons in Hc as [-> |Hc]; [tauto|]);
            apply elem_of_nil in Hc; contradiction).
  all: intros; subst; simpl in *; try congruence.
  all: exfalso;
    repeat match goal with
           | H : context [bool_decide (?x = ?x)] |- _ =>
               rewrite (bool_decide_eq_true_2 (x = x) eq_refl) in H
           end;
    destruct (is_reply event); simpl in *; congruence.
Qed.

Lemma reply_to_text_message :
  files (snd (handle_outgoing_reply text_only ".d" 77700011 trigger_event
                empty_disk)) = ∅
  ∧ dirs (snd (handle_outgoing_reply text_only ".d" 77700011 trigger_event
                 empty_disk)) = ∅
  ∧ (∀ c, c ∈ rcalls (snd (handle_outgoing_reply text_only ".d" 77700011
                             trigger_event empty_disk)) →
          c = RReply StProcessing
          ∨ c = RGetMessages (chat_id trigger_event) (reply_to_msg_id trigger_event)
          ∨ c = REdit StNoMedia ∨ c = RSleep 5 ∨ c = RDelete)
  ∧ (is_reply trigger_event = true → raw_text trigger_event = ".d" →
     sender_id trigger_event = 77700011 → reply_r text_only = Returns tt →
     edit_r text_only StNoMedia = Returns tt → sleep_r text_only 5 = Returns tt →
     rcalls (snd (handle_outgoing_reply text_only ".d" 77700011 trigger_event
                    empty_disk))
     = [RReply StProcessing;
        RGetMessages (chat_id trigger_event) (reply_to_msg_id trigger_event);
        REdit StNoMedia; RSleep 5; RDelete]).
Proof.
  exact (reply_without_media_downloads_nothing text_only ".d" 77700011 trigger_event
           ∅ ∅ {| message_id := 5; has_media := false |} eq_refl eq_refl).
Defined.

Ltac relay_cases_all :=
  repeat match goal with
         | _ => progress cbn [files dirs rcalls fst snd is_Exception]
         | He : ∀ t, edit_r ?env t = Returns tt |- context [edit_r ?env ?x] =>
             rewrite (He x)
         | He : ∀ n, sleep_r ?env n = Returns tt |- context [sleep_r ?env ?x] =>
             rewrite (He x)
         | |- context [match ?x with _ => _ end] =>
             lazymatch x with
             | context [match _ with _ => _ end] => fail
             | _ => destruct x eqn:?; try congruence
             end
         end.

(** X17: with the sender resolved, the directory created and the
    status edits and sleeps succeeding, no failure of the status reply,
    of the fetch, of the download, of the forward or of the deletion
    leaves the handler (a cancellation apart): it returns normally. *)
Theorem relay_errors_are_contained
    (env : relay_env) (command_trigger : string) (my_id : Z) (event : new_message)
    (st : relay_state) (media_sender : option sender) :
  get_sender_r env = Returns media_sender →
  makedirs_r env = Returns tt →
  (∀ text, edit_r env text = Returns tt) →
  (∀ seconds, sleep_r env seconds = Returns tt) →
  reply_r env ≠ Raises CancelledError →
  get_messages_r env ≠ Raises CancelledError →
  download_media_r env ≠ Raises CancelledError →
  send_file_r env ≠ Raises CancelledError →
  delete_r env ≠ Raises CancelledError →
  fst (handle_outgoing_reply env command_trigger my_id event st) = Returns tt.
Proof.
  intros Hsender Hmk Hedit Hsleep Hr Hg Hd Hs Hdel.
  unfold_relay.
  unfold forward_step, try_finally, remove_file, try_except, bind, call, edit_status,
    when, delete_status, on_Exception, pure, log_relay, try_except, call, finish.
  rewrite Hsender, Hmk.
  relay_cases_all.
  all: repeat match goal with u : unit |- _ => destruct u end; try reflexivity.
  all: repeat match goal with
              | H : is_Exception ?e = false |- _ =>
                  is_var e; destruct e; try discriminate H
              end; congruence.
Qed.

Lemma failed_download_is_contained :
  fst (handle_outgoing_reply download_fails ".d" 77700011 trigger_event empty_disk)
  = Returns tt.
Proof.
  apply (relay_errors_are_contained download_fails ".d" 77700011 trigger_event
           empty_disk None);
    first [reflexivity | discriminate | intros; reflexivity].
Defined.



(** ** The coordinator: ownership and isolation *)

Ltac unfold_bot :=
  unfold reply_text, pop_task, clear_user_data, set_registry, set_tasks, set_futures,
    set_user_data, set_conversations, set_session_files, set_user_ids_file, set_sent;
  cbn [api_configured active_user_telethon_tasks tasks futures context_user_data
       conversations session_files user_ids_file sent fst snd].

Lemma cancel_if_running_fields (o : option nat) (s : bot) :
  active_user_telethon_tasks (cancel_if_running o s) = active_user_telethon_tasks s
  ∧ futures (cancel_if_running o s) = futures s
  ∧ context_user_data (cancel_if_running o s) = context_user_data s
  ∧ conversations (cancel_if_running o s) = conversations s
  ∧ session_files (cancel_if_running o s) = session_files s
  ∧ user_ids_file (cancel_if_running o s) = user_ids_file s
  ∧ sent (cancel_if_running o s) = sent s.
Proof.
  unfold cancel_if_running.
  destruct o as [t|]; [destruct (tasks s !! t) as [tk|]; [destruct (task_done tk)|]|];
    split_and!; reflexivity.
Qed.

Lemma cancel_if_running_tasks (o : option nat) (s : bot) (i : nat) (tk : task) :
  tasks s !! i = Some tk →
  ∃ tk', tasks (cancel_if_running o s) !! i = Some tk'
         ∧ task_user tk' = task_user tk ∧ (tk' = tk ∨ o = Some i).
Proof.
  intros Hi. unfold cancel_if_running.
  destruct o as [t|]; [|eauto].
  destruct (tasks s !! t) as [tk0|] eqn:Ht; [|eauto].
  destruct (task_done tk0); [eauto|]. unfold set_tasks; cbn [tasks].
  destruct (decide (t = i)) as [-> |Hne].
  - rewrite list_lookup_insert_eq by (eapply lookup_lt_Some; eauto).
    rewrite Hi in Ht; injection Ht as <-.
    exists (cancel tk). split_and!; [reflexivity| |right; reflexivity].
    unfold cancel; destruct (status tk); reflexivity.
  - rewrite list_lookup_insert_ne by exact Hne. eauto.
Qed.

Lemma await_task_fields (w : await_env) (t : nat) (s : bot) :
  active_user_telethon_tasks (snd (await_task w t s)) = active_user_telethon_tasks s
  ∧ futures (snd (await_task w t s)) = futures s
  ∧ context_user_data (snd (await_task w t s)) = context_user_data s
  ∧ conversations (snd (await_task w t s)) = conversations s
  ∧ session_files (snd (await_task w t s)) = session_files s
  ∧ user_ids_file (snd (await_task w t s)) = user_ids_file s
  ∧ sent (snd (await_task w t s)) = sent s.
Proof.
  unfold await_task.
  destruct (tasks s !! t) as [tk|]; [destruct (status tk), w|]; split_and!; reflexivity.
Qed.

Lemma await_task_tasks (w : await_env) (t : nat) (s : bot) (i : nat) (tk : task) :
  tasks s !! i = Some tk →
  ∃ tk', tasks (snd (await_task w t s)) !! i = Some tk'
         ∧ task_user tk' = task_user tk ∧ (tk' = tk ∨ t = i).
Proof.
  intros Hi. unfold await_task.
  destruct (tasks s !! t) as [tk0|] eqn:Ht; [|eauto].
  destruct (status tk0), w; cbn [snd]; unfold set_tasks; cbn [tasks]; eauto.
  all: destruct (decide (t = i)) as [-> |Hne];
    [ rewrite list_lookup_insert_eq by (eapply lookup_lt_Some; eauto);
      rewrite Hi in Ht; injection Ht as <-; eauto
    | rewrite list_lookup_insert_ne by exact Hne; eauto ].
Qed.

Lemma after_fulfil_futures (ref : option nat) (v : option string) (s : bot)
    (r : nat) (f : future) :
  futures s !! r = Some f →
  ∃ f', futures (after_fulfil ref v s) !! r = Some f' ∧ (f' = f ∨ ref = Some r).
Proof.
  intros Hr. rewrite (lookup_after_fulfil ref v s r f Hr).
  case_decide; [eexists; split; [reflexivity|right; tauto]|eauto].
Qed.

Lemma password_fulfil_state (upd : update) (s : bot) (ref : option nat) (pw : string) :
  match pending_future ref s with
  | Some rf =>
      match fulfil rf (Some pw) s with
      | Returns s0 => Returns (reply_text upd MsgPasswordReceived s0)
      | Raises e => Raises e
      end
  | None => Returns s
  end
  = Returns (match pending_future ref s with
             | Some _ => reply_text upd MsgPasswordReceived (after_fulfil ref (Some pw) s)
             | None => s
             end).
Proof.
  unfold after_fulfil.
  destruct (pending_future ref s) as [[r f]|] eqn:E; [|reflexivity].
  apply pending_future_Some in E as (_ & _ & ->). reflexivity.
Qed.

Lemma in_code_ref (u : Z) (s : bot) (r : nat) :
  code_future (get_user_data u s) = Some r → r ∈ future_refs (get_user_data u s).
Proof. intros H. unfold future_refs. rewrite H. simpl. left. Qed.

Lemma in_password_ref (u : Z) (s : bot) (r : nat) :
  password_future (get_user_data u s) = Some r → r ∈ future_refs (get_user_data u s).
Proof.
  intros H. unfold future_refs. rewrite H. apply elem_of_app. right. simpl. left.
Qed.

(** The state a handler leaves, before the conversation is entered. *)
Lemma footprint_login_entry (upd : update) (s : bot) :
  footprint upd s (snd (login_entry upd s))
  ∧ shrinks (effective_user upd) s (snd (login_entry upd s))
  ∧ conversations (snd (login_entry upd s)) = conversations s.
Proof.
  unfold login_entry, footprint, shrinks.
  destruct (negb (api_configured s)); [|destruct (has_running_task _ s)];
    unfold_bot; split_and!; eauto 10.
Qed.

Lemma footprint_received_code (upd : update) (s : bot) :
  ∃ s', received_code upd s = Returns (AWAIT_PASSWORD, s')
        ∧ footprint upd s s' ∧ shrinks (effective_user upd) s s'
        ∧ conversations s' = conversations s.
Proof.
  rewrite received_code_unfold. eexists. split; [reflexivity|].
  set (ref := code_future (get_user_data (effective_user upd) s)).
  destruct (after_fulfil_frame ref (Some (strip (message_text upd))) s)
    as (Ht & Hr & Hd & Hc & _ & Hf & _).
  unfold footprint, shrinks.
  destruct (pending_future ref s) eqn:E; unfold_bot;
    rewrite ?Ht, ?Hr, ?Hd, ?Hc, ?Hf; split_and!; eauto 10.
  intros r f Hrf.
  destruct (after_fulfil_futures ref (Some (strip (message_text upd))) s r f Hrf)
    as (f' & Hf' & [-> |Href]); eauto using in_code_ref.
Qed.

Lemma footprint_cancel_login (upd : update) (s : bot) :
  ∃ s', cancel_login upd s = Returns (END, s')
        ∧ footprint upd s s' ∧ shrinks (effective_user upd) s s'
        ∧ conversations s' = conversations s.
Proof.
  rewrite cancel_login_unfold. cbv zeta. eexists. split; [reflexivity|].
  set (u := effective_user upd).
  set (cf := code_future (get_user_data u s)).
  set (pf := password_future (get_user_data u s)).
  set (s0 := reply_text upd MsgCancelled s).
  set (s1 := after_fulfil cf None s0).
  set (s2 := after_fulfil pf None s1).
  set (s3 := pop_task u s2).
  set (o := active_user_telethon_tasks s !! u).
  set (S := clear_user_data u (cancel_if_running o s3)).
  destruct (after_fulfil_frame cf None s0) as (Ht1 & Hr1 & Hd1 & Hc1 & _ & Hf1 & _).
  destruct (after_fulfil_frame pf None s1) as (Ht2 & Hr2 & Hd2 & Hc2 & _ & Hf2 & _).
  fold s1 in Ht1, Hr1, Hd1, Hc1, Hf1. fold s2 in Ht2, Hr2, Hd2, Hc2, Hf2.
  destruct (cancel_if_running_fields o s3) as (Hr3 & Hfu3 & Hd3 & Hc3 & Hf3 & _ & _).
  assert (active_user_telethon_tasks S = delete u (active_user_telethon_tasks s)) as Rg.
  { unfold S, clear_user_data, set_user_data. cbn [active_user_telethon_tasks].
    rewrite Hr3. unfold s3, pop_task, set_registry. cbn [active_user_telethon_tasks].
    rewrite Hr2, Hr1. reflexivity. }
  assert (context_user_data S = delete u (context_user_data s)) as Ud.
  { unfold S, clear_user_data, set_user_data. cbn [context_user_data].
    rewrite Hd3. unfold s3, pop_task, set_registry. cbn [context_user_data].
    rewrite Hd2, Hd1. reflexivity. }
  assert (conversations S = conversations s) as Cv.
  { unfold S, clear_user_data, set_user_data. cbn [conversations].
    rewrite Hc3. unfold s3, pop_task, set_registry. cbn [conversations].
    rewrite Hc2, Hc1. reflexivity. }
  assert (session_files S = session_files s) as Sf.
  { unfold S, clear_user_data, set_user_data. cbn [session_files].
    rewrite Hf3. unfold s3, pop_task, set_registry. cbn [session_files].
    rewrite Hf2, Hf1. reflexivity. }
  assert (tasks S = tasks (cancel_if_running o s3)) as Tk by reflexivity.
  assert (futures S = futures s2) as Fu.
  { unfold S, clear_user_data, set_user_data. cbn [futures]. rewrite Hfu3. reflexivity. }
  clearbody S.
  unfold footprint, shrinks. fold u. rewrite Rg, Ud, Cv, Sf, Tk, Fu.
  split_and!.
  - intros u' Hu. rewrite lookup_delete_ne by congruence. reflexivity.
  - intros u' Hu. rewrite lookup_delete_ne by congruence. reflexivity.
  - reflexivity.
  - reflexivity.
  - intros t tk Htk.
    assert (tasks s3 !! t = Some tk) as Htk3.
    { unfold s3, pop_task, set_registry. cbn [tasks]. rewrite Ht2, Ht1. exact Htk. }
    destruct (cancel_if_running_tasks o s3 t tk Htk3) as (tk' & H1 & H2 & H3).
    exists tk'. split_and!; [exact H1|exact H2|]. destruct H3 as [H3|H3]; eauto.
  - intros r f Hrf.
    destruct (after_fulfil_futures cf None s0 r f Hrf) as (f1 & Hf1' & H1).
    fold s1 in Hf1'.
    destruct (after_fulfil_futures pf None s1 r f1 Hf1') as (f2 & Hf2' & H2).
    fold s2 in Hf2'. exists f2. split; [exact Hf2'|].
    destruct H2 as [-> |H2]; [|right; apply in_password_ref; exact H2].
    destruct H1 as [-> |H1]; [left; reflexivity|right; apply in_code_ref; exact H1].
  - intros t. rewrite lookup_delete_eq. discriminate.
  - intros d. rewrite lookup_delete_eq. discriminate.
  - reflexivity.
Qed.

Lemma footprint_intro (upd : update) (s S : bot) :
  let u := effective_user upd in
  (active_user_telethon_tasks S = active_user_telethon_tasks s
   ∨ active_user_telethon_tasks S = delete u (active_user_telethon_tasks s)) →
  (context_user_data S = context_user_data s
   ∨ context_user_data S = delete u (context_user_data s)) →
  conversations S = conversations s →
  (session_files S = session_files s
   ∨ session_files S = session_files s ∖ {[ u ]}) →
  (∀ t tk, tasks s !! t = Some tk →
     ∃ tk', tasks S !! t = Some tk' ∧ task_user tk' = task_user tk
            ∧ (tk' = tk ∨ active_user_telethon_tasks s !! u = Some t
               ∨ current_login_task (get_user_data u s) = Some t)) →
  (∀ r f, futures s !! r = Some f →
     ∃ f', futures S !! r = Some f'
           ∧ (f' = f ∨ r ∈ future_refs (get_user_data u s))) →
  footprint upd s S ∧ shrinks u s S ∧ conversations S = conversations s.
Proof.
  intros u Rg Ud Cv Sf Tk Fu. unfold footprint, shrinks. fold u. split_and!.
  - intros u' Hu. destruct Rg as [-> | ->]; [reflexivity|].
    apply lookup_delete_ne. congruence.
  - intros u' Hu. destruct Ud as [-> | ->]; [reflexivity|].
    apply lookup_delete_ne. congruence.
  - intros u' Hu. destruct Sf as [-> | ->]; [reflexivity|].
    rewrite elem_of_difference, elem_of_singleton. tauto.
  - intros k _. rewrite Cv. reflexivity.
  - exact Tk.
  - exact Fu.
  - intros t. destruct Rg as [-> | ->]; [tauto|]. rewrite lookup_delete_eq. discriminate.
  - intros d. destruct Ud as [-> | ->]; [tauto|]. rewrite lookup_delete_eq. discriminate.
  - exact Cv.
Qed.

Lemma footprint_received_password (w : await_env) (upd : update) (s : bot) :
  ∃ s', received_password w upd s = Returns (END, s')
        ∧ footprint upd s s' ∧ shrinks (effective_user upd) s s'
        ∧ conversations s' = conversations s.
Proof.
  unfold received_password. cbv zeta. rewrite password_fulfil_state.
  set (u := effective_user upd). set (pw := strip (message_text upd)).
  set (ref := password_future (get_user_data u s)).
  set (s1 := match pending_future ref s with
             | Some _ => reply_text upd MsgPasswordReceived (after_fulfil ref (Some pw) s)
             | None => s
             end).
  assert (active_user_telethon_tasks s1 = active_user_telethon_tasks s
          ∧ context_user_data s1 = context_user_data s
          ∧ conversations s1 = conversations s
          ∧ session_files s1 = session_files s
          ∧ tasks s1 = tasks s) as (Rg1 & Ud1 & Cv1 & Sf1 & Tk1).
  { destruct (after_fulfil_frame ref (Some pw) s) as (Ht & Hr & Hd & Hc & _ & Hf & _).
    unfold s1. destruct (pending_future ref s); unfold_bot; split_and!; congruence. }
  assert (∀ r f, futures s !! r = Some f →
            ∃ f', futures s1 !! r = Some f'
                  ∧ (f' = f ∨ r ∈ future_refs (get_user_data u s))) as Fu1.
  { intros r f Hr. unfold s1.
    destruct (pending_future ref s); [unfold_bot|eauto].
    destruct (after_fulfil_futures ref (Some pw) s r f Hr) as (f' & Hf' & [-> |H]);
      eauto using in_password_ref. }
  clearbody s1.
  destruct (current_login_task (get_user_data u s)) as [t|] eqn:Hclt.
  - destruct (await_task w t s1) as [r s2] eqn:Ha.
    assert (s2 = snd (await_task w t s1)) as Hs2 by (rewrite Ha; reflexivity).
    pose proof (await_task_fields w t s1) as F2. rewrite <- Hs2 in F2.
    destruct F2 as (Rg2 & Fu2 & Ud2 & Cv2 & Sf2 & _ & _).
    assert (∀ i tk, tasks s !! i = Some tk →
              ∃ tk', tasks s2 !! i = Some tk' ∧ task_user tk' = task_user tk
                     ∧ (tk' = tk ∨ active_user_telethon_tasks s !! u = Some i
                        ∨ current_login_task (get_user_data u s) = Some i)) as Tk2.
    { intros i tk Hi. rewrite <- Tk1 in Hi. rewrite Hs2.
      destruct (await_task_tasks w t s1 i tk Hi) as (tk' & H1 & H2 & [H3| <-]);
        eauto 10. }
    eexists; split; [reflexivity|].
    destruct r as [[id|]|e]; [| |destruct e]; cbn [is_Exception];
      apply footprint_intro; unfold_bot;
      rewrite ?Rg2, ?Fu2, ?Ud2, ?Cv2, ?Sf2, ?Rg1, ?Ud1, ?Cv1, ?Sf1; eauto.
  - eexists; split; [reflexivity|].
    apply footprint_intro; unfold_bot; rewrite ?Rg1, ?Ud1, ?Cv1, ?Sf1, ?Tk1; eauto 10.
Qed.

Lemma footprint_logout_command (w : await_env) (remove_r : outcome unit)
    (upd : update) (s : bot) :
  footprint upd s (logout_command w remove_r upd s)
  ∧ shrinks (effective_user upd) s (logout_command w remove_r upd s)
  ∧ conversations (logout_command w remove_r upd s) = conversations s.
Proof.
  unfold logout_command. cbv zeta.
  set (u := effective_user upd).
  destruct (active_user_telethon_tasks s !! u) as [t|] eqn:Hreg.
  - set (s1 := pop_task u s).
    set (s2 := match tasks s1 !! t with
               | Some tk => if task_done tk then s1
                            else snd (await_task w t (cancel_if_running (Some t) s1))
               | None => s1
               end).
    assert (active_user_telethon_tasks s2 = delete u (active_user_telethon_tasks s)
            ∧ context_user_data s2 = context_user_data s
            ∧ conversations s2 = conversations s
            ∧ session_files s2 = session_files s
            ∧ futures s2 = futures s) as (Rg2 & Ud2 & Cv2 & Sf2 & Fu2).
    { destruct (await_task_fields w t (cancel_if_running (Some t) s1))
        as (R1 & F1 & D1 & C1 & S1 & _ & _).
      destruct (cancel_if_running_fields (Some t) s1) as (R0 & F0 & D0 & C0 & S0 & _ & _).
      unfold s2. destruct (tasks s1 !! t) as [tk|]; [destruct (task_done tk)|];
        rewrite ?R1, ?F1, ?D1, ?C1, ?S1, ?R0, ?F0, ?D0, ?C0, ?S0;
        split_and!; reflexivity. }
    assert (∀ i tk, tasks s !! i = Some tk →
              ∃ tk', tasks s2 !! i = Some tk' ∧ task_user tk' = task_user tk
                     ∧ (tk' = tk ∨ active_user_telethon_tasks s !! u = Some i
                        ∨ current_login_task (get_user_data u s) = Some i)) as Tk2.
    { intros i tk Hi. unfold s2.
      destruct (tasks s1 !! t) as [tk0|]; [destruct (task_done tk0)|]; eauto.
      destruct (cancel_if_running_tasks (Some t) s1 i tk Hi) as (tk1 & H1 & H2 & H3).
      destruct (await_task_tasks w t _ i tk1 H1) as (tk2 & H4 & H5 & H6).
      exists tk2. split_and!; [exact H4|congruence|].
      destruct H6 as [-> | <-]; [|right; left; exact Hreg].
      destruct H3 as [-> |[= <-]]; [left; reflexivity|right; left; exact Hreg]. }
    clearbody s2.
    destruct (decide (u ∈ session_files s2)); [destruct remove_r|];
      apply footprint_intro; unfold_bot; rewrite ?Rg2, ?Ud2, ?Cv2, ?Sf2, ?Fu2; eauto.
  - apply footprint_intro; unfold_bot; eauto.
Qed.

(** What an accepted phone number adds: two pending futures, one running
    task of the user, and the references to them. *)
Lemma received_phone_fields (upd : update) (s : bot) :
  valid_phone (strip (message_text upd)) = true →
  let u := effective_user upd in
  let phone := strip (message_text upd) in
  let s' := snd (received_phone upd s) in
  active_user_telethon_tasks s'
  = <[u := length (tasks s)]> (active_user_telethon_tasks s)
  ∧ context_user_data s'
    = <[u := {| phone_to_login := Some phone;
                code_future := Some (length (futures s));
                password_future := Some (S (length (futures s)));
                current_login_task := Some (length (tasks s)) |}]>
        (context_user_data s)
  ∧ tasks s' = (tasks s ++ [{| task_user := u; task_phone := phone;
                              status := Running false |}])%list
  ∧ futures s' = (futures s ++ [FutPending; FutPending])%list
  ∧ conversations s' = conversations s
  ∧ session_files s' = session_files s
  ∧ user_ids_file s' = user_ids_file s
  ∧ sent s' = (sent s ++ [(chat upd, MsgAttempting phone); (chat upd, MsgAskCode)])%list.
Proof.
  intros Hv. cbv zeta. unfold received_phone. rewrite Hv.
  cbn [negb fst snd new_future create_task reply_text set_registry set_tasks
       set_futures set_user_data set_sent api_configured active_user_telethon_tasks
       tasks futures context_user_data conversations session_files user_ids_file sent].
  rewrite insert_insert_eq, length_app, Nat.add_1_r, <- !app_assoc.
  split_and!; reflexivity.
Qed.

Lemma enter_fields (upd : update) (r : conv_state * bot) :
  active_user_telethon_tasks (enter upd r) = active_user_telethon_tasks (snd r)
  ∧ context_user_data (enter upd r) = context_user_data (snd r)
  ∧ tasks (enter upd r) = tasks (snd r)
  ∧ futures (enter upd r) = futures (snd r)
  ∧ session_files (enter upd r) = session_files (snd r)
  ∧ user_ids_file (enter upd r) = user_ids_file (snd r)
  ∧ sent (enter upd r) = sent (snd r)
  ∧ ∀ k, k ≠ (chat upd, effective_user upd) →
         conversations (enter upd r) !! k = conversations (snd r) !! k.
Proof.
  unfold enter. destruct (fst r); unfold_bot; split_and!; try reflexivity;
    intros k Hk; rewrite ?lookup_insert_ne, ?lookup_delete_ne by congruence;
    reflexivity.
Qed.

Lemma consistent_ext (s s' : bot) :
  active_user_telethon_tasks s' = active_user_telethon_tasks s →
  context_user_data s' = context_user_data s →
  tasks s' = tasks s →
  futures s' = futures s →
  consistent s → consistent s'.
Proof.
  intros Rg Ud Tk Fu. unfold consistent, owns_task. rewrite Rg, Ud, Tk, Fu. tauto.
Qed.

Lemma consistent_shrink (upd : update) (s s' : bot) :
  footprint upd s s' → shrinks (effective_user upd) s s' →
  consistent s → consistent s'.
Proof.
  intros (Rg & Ud & _ & _ & Tk & Fu) (Rg' & Ud') (C1 & C2 & C3 & C4 & C5).
  set (u := effective_user upd) in *.
  assert (∀ u0 t, active_user_telethon_tasks s' !! u0 = Some t →
                  active_user_telethon_tasks s !! u0 = Some t) as Rg0.
  { intros u0 t H. destruct (decide (u0 = u)) as [-> |Hne]; [auto|].
    rewrite <- (Rg u0 Hne). exact H. }
  assert (∀ u0 d, context_user_data s' !! u0 = Some d →
                  context_user_data s !! u0 = Some d) as Ud0.
  { intros u0 d H. destruct (decide (u0 = u)) as [-> |Hne]; [auto|].
    rewrite <- (Ud u0 Hne). exact H. }
  assert (∀ u0 t, owns_task s u0 t → owns_task s' u0 t) as Own.
  { intros u0 t (tk & Htk & Hu). destruct (Tk t tk Htk) as (tk' & H1 & H2 & _).
    exists tk'. split; [exact H1|congruence]. }
  split_and!.
  - intros u0 t H. eauto.
  - intros u0 d t H Hd. eauto.
  - intros u0 d r H Hr. specialize (C3 u0 d r (Ud0 _ _ H) Hr).
    apply lookup_lt_is_Some_2 in C3 as [f Hf].
    destruct (Fu r f Hf) as (f' & Hf' & _). eapply lookup_lt_Some. exact Hf'.
  - intros u0 u1 d d' r H H'. eauto.
  - intros u0 d H. eauto.
Qed.

Lemma footprint_enter (upd : update) (s s' : bot) (st : conv_state) :
  footprint upd s s' → conversations s' = conversations s →
  footprint upd s (enter upd (st, s')).
Proof.
  intros (Rg & Ud & Sf & _ & Tk & Fu) Cv.
  destruct (enter_fields upd (st, s')) as (R & D & T & F & S & _ & _ & C).
  cbn [snd] in *. unfold footprint. rewrite R, D, T, F, S.
  split_and!; try assumption.
  intros k Hk. rewrite (C k Hk), Cv. reflexivity.
Qed.

Lemma consistent_enter (upd : update) (r : conv_state * bot) :
  consistent (snd r) → consistent (enter upd r).
Proof.
  destruct (enter_fields upd r) as (R & D & T & F & _).
  apply consistent_ext; assumption.
Qed.

Lemma lookup_user_data (u : Z) (s : bot) (d : user_data) :
  context_user_data s !! u = Some d → get_user_data u s = d.
Proof. intros H. unfold get_user_data. rewrite H. reflexivity. Qed.

Lemma received_phone_ok (upd : update) (s : bot) :
  footprint upd s (snd (received_phone upd s))
  ∧ (consistent s → consistent (snd (received_phone upd s)))
  ∧ conversations (snd (received_phone upd s)) = conversations s.
Proof.
  destruct (valid_phone (strip (message_text upd))) eqn:Hv.
  - destruct (received_phone_fields upd s Hv) as (Rg & Ud & Tk & Fu & Cv & Sf & _).
    cbv zeta in *. set (u := effective_user upd) in *.
    set (s' := snd (received_phone upd s)) in *. clearbody s'.
    split_and!; [|intros (C1 & C2 & C3 & C4 & C5)|exact Cv].
    + unfold footprint. fold u. rewrite Rg, Ud, Tk, Fu, Cv, Sf. split_and!.
      * intros u' Hu. apply lookup_insert_ne. congruence.
      * intros u' Hu. apply lookup_insert_ne. congruence.
      * reflexivity.
      * reflexivity.
      * intros t tk H. exists tk. split_and!; [|reflexivity|left; reflexivity].
        apply lookup_app_l_Some. exact H.
      * intros r f H. exists f. split; [|left; reflexivity].
        apply lookup_app_l_Some. exact H.
    + assert (∀ u0 t, owns_task s u0 t → owns_task s' u0 t) as Own.
      { intros u0 t (tk & Htk & Hu). exists tk. rewrite Tk. split; [|exact Hu].
        apply lookup_app_l_Some. exact Htk. }
      assert (owns_task s' u (length (tasks s))) as New.
      { eexists. rewrite Tk. split; [apply list_lookup_middle; reflexivity|].
        reflexivity. }
      assert (∀ u0 d r, context_user_data s' !! u0 = Some d → r ∈ future_refs d →
                (u0 = u ∧ (length (futures s) ≤ r)%nat
                 ∧ (r < length (futures s) + 2)%nat)
                ∨ (u0 ≠ u ∧ context_user_data s !! u0 = Some d
                   ∧ (r < length (futures s))%nat)) as Refs.
      { intros u0 d r H Hr. rewrite Ud in H.
        apply lookup_insert_Some in H as [[<- <-]|[Hne H]].
        - left. split; [reflexivity|]. unfold future_refs in Hr. simpl in Hr.
          apply elem_of_cons in Hr as [-> |Hr]; [lia|].
          apply list_elem_of_singleton in Hr as ->. lia.
        - right. split_and!; [congruence|exact H|]. eapply C3; eauto. }
      unfold consistent. split_and!.
      * intros u0 t H. rewrite Rg in H.
        apply lookup_insert_Some in H as [[<- <-]|[_ H]]; eauto.
      * intros u0 d t H Hd. rewrite Ud in H.
        apply lookup_insert_Some in H as [[<- <-]|[_ H]]; [|eauto].
        cbn [current_login_task] in Hd. injection Hd as <-. exact New.
      * intros u0 d r H Hr. rewrite Fu, length_app. simpl.
        destruct (Refs u0 d r H Hr) as [(_ & _ & ?)|(_ & _ & ?)]; lia.
      * intros u0 u1 d d' r H H' Hr Hr'.
        destruct (Refs u0 d r H Hr) as [(-> & ? & ?)|(? & Hd0 & ?)];
          destruct (Refs u1 d' r H' Hr') as [(-> & ? & ?)|(? & Hd1 & ?)];
          try reflexivity; try lia.
        eapply C4; eauto.
      * intros u0 d H. rewrite Ud in H.
        apply lookup_insert_Some in H as [[<- <-]|[_ H]]; [|eauto].
        unfold future_refs. simpl. apply NoDup_cons. split.
        -- rewrite list_elem_of_singleton. lia.
        -- apply NoDup_singleton.
  - unfold received_phone. rewrite Hv. cbn [negb snd].
    assert (footprint upd s (reply_text upd MsgInvalidPhone s)
            ∧ shrinks (effective_user upd) s (reply_text upd MsgInvalidPhone s)
            ∧ conversations (reply_text upd MsgInvalidPhone s) = conversations s)
      as (H1 & H2 & H3) by (apply footprint_intro; unfold_bot; eauto).
    split_and!; [exact H1| |exact H3].
    apply consistent_ext; reflexivity.
Qed.

Lemma footprint_refl (upd : update) (s : bot) : footprint upd s s.
Proof. unfold footprint. split_and!; eauto. Qed.

(** Every update keeps [consistent], and changes only what belongs to
    its user. *)
Lemma handle_update_ok (upd : update) (w : world) (s : bot) :
  footprint upd s (handle_update upd w s)
  ∧ (consistent s → consistent (handle_update upd w s)).
Proof.
  pose proof (footprint_refl upd s) as Hrefl.
  destruct (footprint_login_entry upd s) as (L1 & L2 & L3).
  destruct (received_phone_ok upd s) as (P1 & P2 & P3).
  destruct (footprint_received_code upd s) as (sc & Ec & C1 & C2 & C3).
  destruct (footprint_received_password (login_wait w) upd s)
    as (sp & Ep & W1 & W2 & W3).
  destruct (footprint_cancel_login upd s) as (sx & Ex & X1 & X2 & X3).
  destruct (footprint_logout_command (login_wait w) (session_file_removal w) upd s)
    as (O1 & O2 & O3).
  unfold handle_update.
  destruct (conversations s !! (chat upd, effective_user upd)) as [[]|];
    destruct (what upd); try (split; [exact Hrefl|tauto]);
    rewrite ?Ec, ?Ep, ?Ex; cbn [enter_unless_raised];
    try (split; [exact O1|eauto using consistent_shrink]).
  all: try (split; [apply footprint_enter; assumption
                   |intros H; apply consistent_enter; cbn [snd];
                    eauto using consistent_shrink]).
  all: try (destruct (login_entry upd s) as [st s'] eqn:E; cbn [snd] in *;
            split; [apply footprint_enter; assumption
                   |intros H; apply consistent_enter; cbn [snd];
                    eauto using consistent_shrink]).
  all: destruct (received_phone upd s) as [st s'] eqn:E; cbn [snd] in *;
    split; [apply footprint_enter; assumption
           |intros H; apply consistent_enter; cbn [snd]; auto].
Qed.

Lemma session_ends_consistent (t : nat) (env : client_env)
    (cf pf : option fate) (s : bot) :
  consistent s → consistent (session_ends t env cf pf s).
Proof.
  intros (C1 & C2 & C3 & C4 & C5). unfold session_ends.
  destruct (tasks s !! t) as [tk|] eqn:Ht; [|repeat split; assumption].
  destruct (status tk); [|repeat split; assumption].
  assert (∀ u0 i, owns_task s u0 i →
            owns_task (set_session_files
                         ({[task_user tk]} ∪ session_files s)
                         (set_tasks (<[t := finished
                            (fst (run_user_instance env (task_phone tk)
                                    (get_code_from_bot_callback cf)
                                    (get_password_from_bot_callback pf))) tk]>
                            (tasks s)) s)) u0 i) as Own.
  { intros u0 i (tk0 & Htk & Hu). unfold owns_task. unfold_bot.
    destruct (decide (t = i)) as [-> |Hne].
    - rewrite list_lookup_insert_eq by (eapply lookup_lt_Some; eauto).
      eexists. split; [reflexivity|]. cbn [finished task_user]. congruence.
    - rewrite list_lookup_insert_ne by exact Hne. eauto. }
  unfold consistent. split_and!; unfold_bot; eauto.
Qed.

Lemma step_consistent (s : bot) (e : event) : consistent s → consistent (step s e).
Proof.
  destruct e as [upd w|t env cf pf|c u]; cbn [step].
  - apply handle_update_ok.
  - apply session_ends_consistent.
  - apply consistent_ext; reflexivity.
Qed.

Lemma run_consistent (s : bot) (es : list event) : consistent s → consistent (run s es).
Proof.
  revert s. induction es as [|e es IH]; intros s H; [exact H|].
  rewrite run_cons. apply IH, step_consistent, H.
Qed.

Lemma start_bot_consistent (configured : bool) (sessions : gset Z)
    (ids : option string) :
  consistent (start_bot configured sessions ids).
Proof.
  unfold consistent, start_bot. cbn.
  split_and!; intros *; rewrite lookup_empty; discriminate.
Qed.

(** ** What the handlers send and write *)

Ltac replies_ok :=
  repeat first [ apply Forall_nil_2 | apply Forall_cons_2 | assumption
               | split | reflexivity | discriminate ].

Lemma login_entry_outputs (upd : update) (s : bot) :
  session_files (snd (login_entry upd s)) = session_files s
  ∧ user_ids_file (snd (login_entry upd s)) = user_ids_file s
  ∧ ∃ m, sent (snd (login_entry upd s)) = (sent s ++ [(chat upd, m)])%list
         ∧ m ≠ MsgLoggedOutFileRemoved.
Proof.
  unfold login_entry.
  destruct (negb (api_configured s)); [|destruct (has_running_task _ s)];
    unfold_bot; split_and!; try reflexivity;
    eexists; (split; [reflexivity|discriminate]).
Qed.

Lemma received_phone_outputs (upd : update) (s : bot) :
  session_files (snd (received_phone upd s)) = session_files s
  ∧ user_ids_file (snd (received_phone upd s)) = user_ids_file s
  ∧ ∃ ms, sent (snd (received_phone upd s)) = (sent s ++ ms)%list
          ∧ Forall (λ m, m.1 = chat upd ∧ m.2 ≠ MsgLoggedOutFileRemoved) ms.
Proof.
  destruct (valid_phone (strip (message_text upd))) eqn:Hv.
  - destruct (received_phone_fields upd s Hv) as (_ & _ & _ & _ & _ & Sf & Id & Sn).
    cbv zeta in *. rewrite Sf, Id, Sn. split_and!; try reflexivity.
    eexists. split; [reflexivity|]. replies_ok.
  - unfold received_phone. rewrite Hv. cbn [negb snd]. unfold_bot.
    split_and!; try reflexivity. eexists. split; [reflexivity|]. replies_ok.
Qed.

Lemma received_code_outputs (upd : update) (s : bot) :
  ∃ s', received_code upd s = Returns (AWAIT_PASSWORD, s')
        ∧ session_files s' = session_files s
        ∧ user_ids_file s' = user_ids_file s
        ∧ ∃ ms, sent s' = (sent s ++ ms)%list ∧ Forall (λ m, m.1 = chat upd ∧ m.2 ≠ MsgLoggedOutFileRemoved) ms.
Proof.
  rewrite received_code_unfold. eexists. split; [reflexivity|].
  set (ref := code_future (get_user_data (effective_user upd) s)).
  destruct (after_fulfil_frame ref (Some (strip (message_text upd))) s)
    as (_ & _ & _ & _ & Sn & Sf & Id).
  destruct (pending_future ref s); unfold_bot; rewrite ?Sn, ?Sf, ?Id;
    split_and!; try reflexivity.
  - eexists. split; [rewrite <- app_assoc; reflexivity|]. replies_ok.
  - eexists. split; [reflexivity|]. replies_ok.
Qed.

Lemma cancel_login_outputs (upd : update) (s : bot) :
  ∃ s', cancel_login upd s = Returns (END, s')
        ∧ session_files s' = session_files s
        ∧ user_ids_file s' = user_ids_file s
        ∧ sent s' = (sent s ++ [(chat upd, MsgCancelled)])%list.
Proof.
  rewrite cancel_login_unfold. cbv zeta. eexists. split; [reflexivity|].
  unfold clear_user_data, set_user_data. cbn [session_files user_ids_file sent].
  match goal with
  | |- context [cancel_if_running ?o ?x] =>
      destruct (cancel_if_running_fields o x) as (_ & _ & _ & _ & Sf & Id & Sn)
  end.
  rewrite Sf, Id, Sn. unfold pop_task, set_registry.
  cbn [session_files user_ids_file sent].
  repeat match goal with
         | |- context [after_fulfil ?r ?v ?x] =>
             destruct (after_fulfil_frame r v x) as (_ & _ & _ & _ & -> & -> & ->)
         end.
  unfold_bot. split_and!; reflexivity.
Qed.

Lemma await_task_result (w : await_env) (t : nat) (s : bot) (r : outcome (option Z)) :
  fst (await_task w t s) = r → r ≠ Raises OtherError →
  status <$> tasks (snd (await_task w t s)) !! t = Some (Finished r)
  ∨ r = Raises TimeoutError.
Proof.
  unfold await_task. destruct (tasks s !! t) as [tk|] eqn:Ht.
  - destruct (status tk) eqn:Hs, w; cbn [fst snd]; intros <- _; unfold_bot.
    + left. rewrite list_lookup_insert_eq by (eapply lookup_lt_Some; eauto).
      reflexivity.
    + right. reflexivity.
    + left. rewrite Ht. simpl. congruence.
    + left. rewrite Ht. simpl. congruence.
  - cbn [fst]. intros <- H. contradiction.
Qed.

Lemma received_password_outputs (w : await_env) (upd : update) (s : bot) :
  ∃ s' ms, received_password w upd s = Returns (END, s')
    ∧ session_files s' = session_files s
    ∧ sent s' = (sent s ++ ms)%list ∧ Forall (λ m, m.1 = chat upd ∧ m.2 ≠ MsgLoggedOutFileRemoved) ms
    ∧ (user_ids_file s' = user_ids_file s
       ∨ ∃ id t, current_login_task (get_user_data (effective_user upd) s) = Some t
                 ∧ status <$> tasks s' !! t = Some (Finished (Returns (Some id)))
                 ∧ user_ids_file s' = add_user_id_to_store id (user_ids_file s)
                 ∧ last ms = Some (chat upd, MsgLoginSuccessful id)).
Proof.
  unfold received_password. cbv zeta. rewrite password_fulfil_state.
  set (u := effective_user upd). set (pw := strip (message_text upd)).
  set (ref := password_future (get_user_data u s)).
  set (s1 := match pending_future ref s with
             | Some _ => reply_text upd MsgPasswordReceived (after_fulfil ref (Some pw) s)
             | None => s
             end).
  assert (session_files s1 = session_files s ∧ user_ids_file s1 = user_ids_file s
          ∧ ∃ m0, sent s1 = (sent s ++ m0)%list ∧ Forall (λ m, m.1 = chat upd ∧ m.2 ≠ MsgLoggedOutFileRemoved) m0)
    as (Sf1 & Id1 & m0 & Sn1 & Hm0).
  { destruct (after_fulfil_frame ref (Some pw) s) as (_ & _ & _ & _ & Sn & Sf & Id).
    unfold s1. destruct (pending_future ref s); unfold_bot; rewrite ?Sn, ?Sf, ?Id;
      split_and!; try reflexivity.
    - eexists. split; [reflexivity|]. replies_ok.
    - exists []. split; [rewrite app_nil_r; reflexivity|constructor]. }
  clearbody s1.
  destruct (current_login_task (get_user_data u s)) as [t|] eqn:Hclt.
  - destruct (await_task w t s1) as [r s2] eqn:Ha.
    assert (s2 = snd (await_task w t s1)) as Hs2 by (rewrite Ha; reflexivity).
    assert (fst (await_task w t s1) = r) as Hr by (rewrite Ha; reflexivity).
    pose proof (await_task_fields w t s1) as F2. rewrite <- Hs2 in F2.
    destruct F2 as (_ & _ & _ & _ & Sf2 & Id2 & Sn2).
    pose proof (await_task_result w t s1 r Hr) as Res. rewrite <- Hs2 in Res.
    clear Ha Hs2 Hr.
    destruct r as [[id|]|e]; [| |destruct e]; cbn [is_Exception];
      eexists; eexists; (split; [reflexivity|]);
      unfold_bot; rewrite ?Sf2, ?Sn2, ?Id2, ?Sf1, ?Sn1, ?Id1, <- ?app_assoc;
      (split; [reflexivity|]); (split; [reflexivity|]);
      (split; [rewrite ?Forall_app; replies_ok|]).
    1: { right. exists id, t. split_and!; try reflexivity.
         - destruct Res as [Res|Res]; [discriminate|exact Res|discriminate Res].
         - apply last_snoc. }
    all: left; reflexivity.
  - eexists; eexists; (split; [reflexivity|]);
      unfold_bot; rewrite ?Sf1, ?Sn1, ?Id1, <- ?app_assoc;
      (split; [reflexivity|]); (split; [reflexivity|]);
      (split; [rewrite ?Forall_app; replies_ok|]).
    left; reflexivity.
Qed.


Lemma logout_command_outputs (w : await_env) (remove_r : outcome unit)
    (upd : update) (s : bot) :
  let u := effective_user upd in
  let s' := logout_command w remove_r upd s in
  user_ids_file s' = user_ids_file s
  ∧ context_user_data s' = context_user_data s
  ∧ futures s' = futures s
  ∧ active_user_telethon_tasks s' = delete u (active_user_telethon_tasks s)
  ∧ ∃ m, sent s' = (sent s ++ [(chat upd, m)])%list
         ∧ (session_files s' = session_files s ∧ m ≠ MsgLoggedOutFileRemoved
            ∨ (is_Some (active_user_telethon_tasks s !! u)
               ∧ u ∈ session_files s
               ∧ remove_r = Returns tt
               ∧ session_files s' = session_files s ∖ {[ u ]}
               ∧ m = MsgLoggedOutFileRemoved)).
Proof.
  cbv zeta. unfold logout_command. cbv zeta.
  set (u := effective_user upd).
  destruct (active_user_telethon_tasks s !! u) as [t|] eqn:Hreg.
  - set (s1 := pop_task u s).
    set (s2 := match tasks s1 !! t with
               | Some tk => if task_done tk then s1
                            else snd (await_task w t (cancel_if_running (Some t) s1))
               | None => s1
               end).
    assert (active_user_telethon_tasks s2 = delete u (active_user_telethon_tasks s)
            ∧ context_user_data s2 = context_user_data s
            ∧ session_files s2 = session_files s
            ∧ futures s2 = futures s
            ∧ user_ids_file s2 = user_ids_file s
            ∧ sent s2 = sent s) as (Rg2 & Ud2 & Sf2 & Fu2 & Id2 & Sn2).
    { destruct (await_task_fields w t (cancel_if_running (Some t) s1))
        as (R1 & F1 & D1 & _ & S1 & I1 & N1).
      destruct (cancel_if_running_fields (Some t) s1) as (R0 & F0 & D0 & _ & S0 & I0 & N0).
      unfold s2. destruct (tasks s1 !! t) as [tk|]; [destruct (task_done tk)|];
        rewrite ?R1, ?F1, ?D1, ?S1, ?I1, ?N1, ?R0, ?F0, ?D0, ?S0, ?I0, ?N0;
        split_and!; reflexivity. }
    clearbody s2.
    destruct (decide (u ∈ session_files s2)) as [Hin|Hin];
      [destruct remove_r as [[]|e]|]; unfold_bot;
      rewrite ?Rg2, ?Ud2, ?Sf2, ?Fu2, ?Id2, ?Sn2;
      (split_and!; [reflexivity..|]); eexists; (split; [reflexivity|]).
    + right. rewrite Sf2 in Hin. split_and!; eauto.
    + left. split; [reflexivity|discriminate].
    + left. split; [reflexivity|discriminate].
  - unfold_bot. split_and!; try reflexivity.
    eexists. split; [reflexivity|]. left. split; [reflexivity|discriminate].
Qed.


(** What an update sends and writes, for every handler at once. *)
Lemma handle_update_outputs (upd : update) (w : world) (s : bot) :
  let u := effective_user upd in
  let s' := handle_update upd w s in
  ∃ ms, sent s' = (sent s ++ ms)%list ∧ Forall (λ m, m.1 = chat upd) ms
    ∧ (user_ids_file s' = user_ids_file s
       ∨ ∃ id t, conversations s !! (chat upd, u) = Some AWAIT_PASSWORD
                 ∧ current_login_task (get_user_data u s) = Some t
                 ∧ status <$> tasks s' !! t = Some (Finished (Returns (Some id)))
                 ∧ user_ids_file s' = add_user_id_to_store id (user_ids_file s)
                 ∧ last ms = Some (chat upd, MsgLoginSuccessful id))
    ∧ (session_files s' = session_files s
         ∧ (chat upd, MsgLoggedOutFileRemoved) ∉ ms
       ∨ (what upd = CmdLogout
          ∧ is_Some (active_user_telethon_tasks s !! u)
          ∧ u ∈ session_files s
          ∧ session_file_removal w = Returns tt
          ∧ session_files s' = session_files s ∖ {[ u ]}
          ∧ ms = [(chat upd, MsgLoggedOutFileRemoved)])).
Proof.
  cbv zeta.
  assert (∀ ms, Forall (λ m : Z * bot_reply,
                          m.1 = chat upd ∧ m.2 ≠ MsgLoggedOutFileRemoved) ms →
                Forall (λ m : Z * bot_reply, m.1 = chat upd) ms
                ∧ (chat upd, MsgLoggedOutFileRemoved) ∉ ms) as Hplain.
  { intros ms H. split.
    - eapply Forall_impl; [exact H|]. intros m Hm. apply Hm.
    - intros Hin. rewrite Forall_forall in H. destruct (H _ Hin) as [_ Hne].
      apply Hne. reflexivity. }
  destruct (login_entry_outputs upd s) as (L1 & L2 & ml & L3 & L4).
  destruct (received_phone_outputs upd s) as (P1 & P2 & mp & P3 & P4).
  destruct (received_code_outputs upd s) as (sc & Ec & C1 & C2 & mc & C3 & C4).
  destruct (received_password_outputs (login_wait w) upd s)
    as (sp & mw & Ep & W1 & W2 & W3 & W4).
  destruct (cancel_login_outputs upd s) as (sx & Ex & X1 & X2 & X3).
  destruct (logout_command_outputs (login_wait w) (session_file_removal w) upd s)
    as (O1 & _ & _ & _ & mo & O2 & O3).
  cbv zeta in *.
  apply Hplain in P4 as [P4 P5]. apply Hplain in C4 as [C4 C5].
  apply Hplain in W3 as [W3 W5].
  unfold handle_update.
  destruct (conversations s !! (chat upd, effective_user upd)) as [[]|] eqn:Hconv;
    destruct (what upd) eqn:Hwhat;
    rewrite ?Ec, ?Ep, ?Ex; cbn [enter_unless_raised].
  all: try match goal with
           | |- context [enter ?u ?r] =>
               destruct (enter_fields u r) as (_ & _ & E1 & _ & E2 & E3 & E4 & _);
               cbn [snd] in E1, E2, E3, E4; rewrite ?E1, E2, E3, E4; clear E1 E2 E3 E4
           end.
  all: lazymatch goal with
       | |- context [logout_command] =>
           exists [(chat upd, mo)]; rewrite O1, O2;
           split_and!; [reflexivity|repeat constructor|left; reflexivity|];
           destruct O3 as [[-> Hm]|(H1 & H2 & H3 & H4 & ->)];
           [left; split; [reflexivity|];
            intros Hin; apply list_elem_of_singleton in Hin; congruence
           |right; split_and!; auto]
       | |- context [login_entry] =>
           exists [(chat upd, ml)]; rewrite L1, L2, L3;
           split_and!; [reflexivity|repeat constructor|left; reflexivity|];
           left; split; [reflexivity|];
           intros Hin; apply list_elem_of_singleton in Hin; congruence
       | |- context [received_phone] =>
           exists mp; rewrite P1, P2, P3;
           split_and!; [reflexivity|exact P4|left; reflexivity|];
           left; split; [reflexivity|exact P5]
       | |- ∃ ms, sent ?x = _ ∧ _ =>
           first
             [ constr_eq x s; exists []; rewrite app_nil_r;
               split_and!; [reflexivity|apply Forall_nil_2|left; reflexivity|];
               left; split; [reflexivity|apply not_elem_of_nil]
             | constr_eq x sx; exists [(chat upd, MsgCancelled)]; rewrite X1, X2, X3;
               split_and!; [reflexivity|repeat constructor|left; reflexivity|];
               left; split; [reflexivity|];
               intros Hin; apply list_elem_of_singleton in Hin; discriminate Hin
             | constr_eq x sc; exists mc; rewrite C1, C2, C3;
               split_and!; [reflexivity|exact C4|left; reflexivity|];
               left; split; [reflexivity|exact C5]
             | constr_eq x sp; exists mw; rewrite W1, W2;
               split_and!; [reflexivity|exact W3| |left; split; [reflexivity|exact W5]];
               destruct W4 as [W4|(id & lt & V1 & V2 & V3 & V4)];
               [left; exact W4|right; exists id, lt; split_and!; auto] ]
       end.
Qed.

(** ** The coordinator: what it writes, sends and removes *)

(** X19: in every state the bot reaches from its start, the task
    registered for a user and the login task of the user's data are
    tasks created for that user, and the two futures of a user's data
    exist, are distinct, and are those of no other user. *)
Theorem reachable_states_are_consistent
    (configured : bool) (sessions : gset Z) (ids : option string) (es : list event) :
  consistent (run (start_bot configured sessions ids) es).
Proof. apply run_consistent, start_bot_consistent. Qed.

Lemma step_session_ends_fields (t : nat) (env : client_env) (cf pf : option fate)
    (s : bot) :
  sent (session_ends t env cf pf s) = sent s
  ∧ user_ids_file (session_ends t env cf pf s) = user_ids_file s
  ∧ session_files s ⊆ session_files (session_ends t env cf pf s).
Proof.
  unfold session_ends.
  destruct (tasks s !! t) as [tk|]; [destruct (status tk)|]; unfold_bot;
    split_and!; try reflexivity.
  apply union_subseteq_r.
Qed.

(** X20: in every state the bot reaches from its start, an update of
    one user leaves what belongs to another user as it is: the registry
    entry, the user data, the conversations, the session file, the
    registered task and the login task, and the two futures. *)
Theorem other_users_are_not_disturbed
    (configured : bool) (sessions : gset Z) (ids : option string) (es : list event)
    (upd : update) (w : world) (u' : Z) :
  u' ≠ effective_user upd →
  let s := run (start_bot configured sessions ids) es in
  let s' := handle_update upd w s in
  active_user_telethon_tasks s' !! u' = active_user_telethon_tasks s !! u'
  ∧ context_user_data s' !! u' = context_user_data s !! u'
  ∧ (∀ c, conversations s' !! (c, u') = conversations s !! (c, u'))
  ∧ (u' ∈ session_files s' ↔ u' ∈ session_files s)
  ∧ (∀ t, active_user_telethon_tasks s !! u' = Some t
          ∨ current_login_task (get_user_data u' s) = Some t →
          tasks s' !! t = tasks s !! t)
  ∧ (∀ r, code_future (get_user_data u' s) = Some r
          ∨ password_future (get_user_data u' s) = Some r →
          futures s' !! r = futures s !! r).
Proof.
  intros Hu s s'.
  pose proof (reachable_consistent := run_consistent _ es
                (start_bot_consistent configured sessions ids)).
  fold s in reachable_consistent.
  destruct reachable_consistent as (C1 & C2 & C3 & C4 & C5).
  destruct (handle_update_ok upd w s) as ((Rg & Ud & Sf & Cv & Tk & Fu) & _).
  fold s' in Rg, Ud, Sf, Cv, Tk, Fu.
  assert (∀ u t, current_login_task (get_user_data u s) = Some t → owns_task s u t)
    as C2'.
  { intros u t H. unfold get_user_data in H.
    destruct (context_user_data s !! u) as [d|] eqn:Hd; [|discriminate H].
    eapply C2; eauto. }
  assert (∀ u r, r ∈ future_refs (get_user_data u s) →
                 ∃ d, context_user_data s !! u = Some d ∧ r ∈ future_refs d) as Refs.
  { intros u r H. unfold get_user_data in H.
    destruct (context_user_data s !! u) as [d|] eqn:Hd; [eauto|].
    apply elem_of_nil in H. contradiction. }
  split_and!.
  - apply Rg, Hu.
  - apply Ud, Hu.
  - intros c. apply Cv. congruence.
  - apply Sf, Hu.
  - intros t Ht.
    assert (owns_task s u' t) as (tk & Htk & Hown) by (destruct Ht; eauto).
    destruct (Tk t tk Htk) as (tk' & H1 & _ & [-> |H2]); [congruence|].
    assert (owns_task s (effective_user upd) t) as (tk0 & Htk0 & Hown0)
      by (destruct H2; eauto).
    congruence.
  - intros r Hr.
    assert (r ∈ future_refs (get_user_data u' s)) as Hin
      by (destruct Hr; eauto using in_code_ref, in_password_ref).
    destruct (Refs _ _ Hin) as (d' & Hd' & Hr').
    pose proof (C3 _ _ _ Hd' Hr') as Hlt.
    apply lookup_lt_is_Some_2 in Hlt as [f Hf].
    destruct (Fu r f Hf) as (f' & H1 & [-> |H2]); [congruence|].
    destruct (Refs _ _ H2) as (d & Hd & Hrd).
    destruct Hu. eapply C4; eauto.
Qed.

Lemma logout_of_a_stranger_leaves_the_handshake :
  42 ≠ 7
  ∧ active_user_telethon_tasks
      (handle_update {| chat := 3; effective_user := 7; what := CmdLogout |} quiet
         awaiting_code) !! 42
    = active_user_telethon_tasks awaiting_code !! 42
  ∧ context_user_data
      (handle_update {| chat := 3; effective_user := 7; what := CmdLogout |} quiet
         awaiting_code) !! 42
    = context_user_data awaiting_code !! 42
  ∧ (∀ c, conversations
            (handle_update {| chat := 3; effective_user := 7; what := CmdLogout |}
               quiet awaiting_code) !! (c, 42)
          = conversations awaiting_code !! (c, 42))
  ∧ (42 ∈ session_files
            (handle_update {| chat := 3; effective_user := 7; what := CmdLogout |}
               quiet awaiting_code)
     ↔ 42 ∈ session_files awaiting_code)
  ∧ (∀ t, active_user_telethon_tasks awaiting_code !! 42 = Some t
          ∨ current_login_task (get_user_data 42 awaiting_code) = Some t →
          tasks (handle_update {| chat := 3; effective_user := 7; what := CmdLogout |}
                   quiet awaiting_code) !! t
          = tasks awaiting_code !! t)
  ∧ (∀ r, code_future (get_user_data 42 awaiting_code) = Some r
          ∨ password_future (get_user_data 42 awaiting_code) = Some r →
          futures (handle_update {| chat := 3; effective_user := 7; what := CmdLogout |}
                     quiet awaiting_code) !! r
          = futures awaiting_code !! r).
Proof.
  split; [lia|].
  apply (other_users_are_not_disturbed true ∅ None
           [user_sends 1 CmdLogin; user_sends 1 (Text "+12345678900")]
           {| chat := 3; effective_user := 7; what := CmdLogout |} quiet 42).
  cbn. lia.
Defined.

(** X21: the id list is written by no event but a text received in
    [AWAIT_PASSWORD] whose login task has returned an identity: the list
    is then the old one with that identity added, and the last reply
    tells the user that the login succeeded. *)
Theorem id_list_written_only_after_successful_login (s : bot) (e : event) :
  user_ids_file (step s e) = user_ids_file s
  ∨ ∃ upd w id t,
      e = Incoming upd w
      ∧ conversations s !! (chat upd, effective_user upd) = Some AWAIT_PASSWORD
      ∧ current_login_task (get_user_data (effective_user upd) s) = Some t
      ∧ status <$> tasks (step s e) !! t = Some (Finished (Returns (Some id)))
      ∧ user_ids_file (step s e) = add_user_id_to_store id (user_ids_file s)
      ∧ last (sent (step s e)) = Some (chat upd, MsgLoginSuccessful id).
Proof.
  destruct e as [upd w|t env cf pf|c u]; cbn [step].
  - destruct (handle_update_outputs upd w s) as (ms & Sn & _ & Id & _).
    cbv zeta in *.
    destruct Id as [Id|(id & t & H1 & H2 & H3 & H4 & H5)]; [left; exact Id|].
    right. exists upd, w, id, t. split_and!; auto.
    rewrite Sn, last_app, H5. reflexivity.
  - left. apply step_session_ends_fields.
  - left. reflexivity.
Qed.

(** X22: a session file that exists is removed by no event but the
    [/logout] of its user, with a registry entry and a removal that
    succeeds; the user is then told that the file was removed. *)
Theorem session_file_removed_only_by_logout (s : bot) (e : event) (u : Z) :
  u ∈ session_files s →
  u ∉ session_files (step s e) →
  ∃ upd w,
    e = Incoming upd w ∧ what upd = CmdLogout ∧ effective_user upd = u
    ∧ is_Some (active_user_telethon_tasks s !! u)
    ∧ session_file_removal w = Returns tt
    ∧ last (sent (step s e)) = Some (chat upd, MsgLoggedOutFileRemoved).
Proof.
  intros Hin Hout.
  destruct e as [upd w|t env cf pf|c u0]; cbn [step] in *.
  - destruct (handle_update_outputs upd w s) as (ms & Sn & _ & _ & Sf).
    cbv zeta in *.
    destruct Sf as [[Sf _]|(H1 & H2 & H3 & H4 & H5 & ->)].
    + rewrite Sf in Hout. contradiction.
    + rewrite H5 in Hout.
      assert (u = effective_user upd) as ->.
      { destruct (decide (u = effective_user upd)) as [E|E]; [exact E|].
        destruct Hout. apply elem_of_difference. split; [exact Hin|].
        rewrite elem_of_singleton. exact E. }
      exists upd, w. split_and!; auto.
      rewrite Sn. apply last_snoc.
  - destruct (step_session_ends_fields t env cf pf s) as (_ & _ & Sub).
    destruct Hout. apply Sub, Hin.
  - contradiction.
Qed.

Lemma logout_removes_the_session_file :
  42 ∈ session_files after_session_task
  ∧ (42 ∉ session_files (step after_session_task (user_sends 1 CmdLogout)))
  ∧ ∃ upd w,
      user_sends 1 CmdLogout = Incoming upd w ∧ what upd = CmdLogout
      ∧ effective_user upd = 42
      ∧ is_Some (active_user_telethon_tasks after_session_task !! 42)
      ∧ session_file_removal w = Returns tt
      ∧ last (sent (step after_session_task (user_sends 1 CmdLogout)))
        = Some (chat upd, MsgLoggedOutFileRemoved).
Proof.
  assert (session_files after_session_task = {[ 42 ]}) as E1 by reflexivity.
  assert (session_files (step after_session_task (user_sends 1 CmdLogout)) = ∅) as E2
    by reflexivity.
  assert (42 ∈ session_files after_session_task) as Hin
    by (rewrite E1; apply elem_of_singleton; reflexivity).
  assert (42 ∉ session_files (step after_session_task (user_sends 1 CmdLogout))) as Hout
    by (rewrite E2; apply not_elem_of_empty).
  split; [exact Hin|]. split; [exact Hout|].
  exact (session_file_removed_only_by_logout after_session_task (user_sends 1 CmdLogout) 42
           Hin Hout).
Defined.

(** X23: the bot only adds to what it has sent, only when an update
    comes in, and only in the chat of that update. *)
Theorem replies_go_to_the_chat_of_the_update (s : bot) (e : event) :
  ∃ ms, sent (step s e) = (sent s ++ ms)%list
        ∧ ∀ m, m ∈ ms → ∃ upd w, e = Incoming upd w ∧ m.1 = chat upd.
Proof.
  destruct e as [upd w|t env cf pf|c u]; cbn [step].
  - destruct (handle_update_outputs upd w s) as (ms & Sn & Hms & _).
    cbv zeta in *. exists ms. split; [exact Sn|].
    intros m Hm. rewrite Forall_forall in Hms. eauto.
  - exists []. rewrite app_nil_r. split; [apply step_session_ends_fields|].
    intros m Hm. apply elem_of_nil in Hm. contradiction.
  - exists []. rewrite app_nil_r. split; [reflexivity|].
    intros m Hm. apply elem_of_nil in Hm. contradiction.
Qed.


